(** * oralVI-server: authentication chain and submission lifecycle

    A shallow embedding of the Express middleware ([middleware/auth.js]),
    of the Mongoose models ([models/User.js], [models/Submission.js]) and of
    the patient and admin route handlers ([routes/patient.js],
    [routes/admin.js]), followed by the properties of the specification
    that can be stated over them.

    [middleware/auth.js] and [routes/patient.js] come in several versions;
    line numbers refer to the first one, which is the one embedded, except
    for [generate_report_stream], the [upload_stream] variant of the
    patient report endpoint found in the later versions, for [AuthV2], the
    second version of the verifier, and for [upload_v2] and [upload_v3],
    the later versions of the upload route.

    Modelling conventions.
    - A Mongoose collection is a finite map from [_id] to document, the
      [_id] in the driver's rendering of an ObjectId; the record store is
      in reach, so that a query throws only when Mongoose cannot cast the
      id it is given ([CastError]) and [save] only when the schema
      refuses a new document ([ValidationError]).  A stored document
      has passed the schema, and the handlers write to it no value the
      schema refuses, so saving it again is not refused.
    - Every call that leaves the process (Cloudinary upload, the HTTP GET of
      the annotated image, the [_id] the driver picks for a new document)
      is an explicit input of the handler, record [Outside].
    - Which strings Mongoose casts to an ObjectId is a parameter,
      [isObjectId].  The [_id] of a stored document is an ObjectId, so an
      id under which something is stored casts: a query looks the id up
      and the cast decides, when nothing is stored under it, between no
      document and a [CastError].
    - A handler returns the new database and the response it wrote, if it
      wrote one.
    - [console.log] / [console.error] and the [createdAt] / [updatedAt]
      timestamps are left out; the bytes of the PDF are not modelled, only
      whether the artifact store accepted them. *)

From stdpp Require Import gmap strings list fin_maps.
From Stdlib Require Import String Ascii NArith.

Local Open Scope string_scope.

(** ** JavaScript helpers *)

Module Js.

(** Truthiness of a value that is a string, [undefined] or [null]. *)
Definition truthy (v : option string) : bool :=
  match v with
  | Some s => negb (String.eqb s "")
  | None => false
  end.

(** [a || b] on such values. *)
Definition or (a b : option string) : option string :=
  if truthy a then a else b.

(** [s.startsWith(p)] *)
Definition startsWith (s p : string) : bool := String.prefix p s.

(** [s.split(sep)] for a one-character separator. *)
Fixpoint split (sep : ascii) (s : string) : list string :=
  match s with
  | EmptyString => [EmptyString]
  | String c rest =>
      if Ascii.eqb c sep then EmptyString :: split sep rest
      else match split sep rest with
           | w :: ws => String c w :: ws
           | [] => [String c EmptyString]
           end
  end.

(** [roles.includes(r)] *)
Definition includes (l : list string) (r : string) : bool :=
  existsb (String.eqb r) l.

End Js.

(** ** Data model *)

Abbreviation ObjectId := string (only parsing).

(** [models/User.js] *)
Module User.
Record t := mk {
  _id : ObjectId;
  name : string;
  patientId : option string;
  email : string;
  password : string;
  role : string
}.
End User.

(** [models/Submission.js]; [status] is a string, as in the schema, whose
    [enum] is [status_enum] and whose default is ["uploaded"]. *)
Module Submission.
Record t := mk {
  _id : ObjectId;
  patient : ObjectId;
  name : string;
  patientId : string;
  email : string;
  note : option string;
  imageUrl : string;
  annotationJson : option string;
  annotatedImageUrl : option string;
  reportUrl : option string;
  status : string
}.

Definition status_enum : list string := ["uploaded"; "annotated"; "reported"].
Definition status_default : string := "uploaded".

(** [new Submission({ patient, name, patientId, email, note, imageUrl })] *)
Definition new (oid patient name patientId email : string)
    (note : option string) (imageUrl : string) : t :=
  mk oid patient name patientId email note imageUrl None None None
     status_default.

(** [s.annotatedImageUrl = url; s.status = 'annotated'] *)
Definition set_annotated (url : string) (s : t) : t :=
  mk (_id s) (patient s) (name s) (patientId s) (email s) (note s)
     (imageUrl s) (annotationJson s) (Some url) (reportUrl s) "annotated".

(** [s.annotationJson = j] *)
Definition set_annotationJson (j : option string) (s : t) : t :=
  mk (_id s) (patient s) (name s) (patientId s) (email s) (note s)
     (imageUrl s) j (annotatedImageUrl s) (reportUrl s) (status s).

(** [s.reportUrl = url; s.status = 'reported'] *)
Definition set_reported (url : string) (s : t) : t :=
  mk (_id s) (patient s) (name s) (patientId s) (email s) (note s)
     (imageUrl s) (annotationJson s) (annotatedImageUrl s) (Some url)
     "reported".

(** What the schema asks of a document when it is saved: the [required]
    strings are not empty, [status] is in the [enum].  ([patient], the
    other [required] path, is an ObjectId and always set.) *)
Definition validate (s : t) : bool :=
  negb (String.eqb (name s) "") && negb (String.eqb (patientId s) "")
  && negb (String.eqb (email s) "") && negb (String.eqb (imageUrl s) "")
  && Js.includes status_enum (status s).

End Submission.

(** The two collections. *)
Record Db := mkDb {
  Users : gmap string User.t;
  Submissions : gmap string Submission.t
}.

(** [req.file] as multer's memory storage leaves it; the buffer itself is
    not needed, only its size. *)
Record File := mkFile {
  mimetype : string;
  originalname : string;
  size : N
}.

Record Request := mkReq {
  cookies : option (gmap string string);
  headers : gmap string string;
  params_id : string;
  body : gmap string string;
  file : option File;
  user : option User.t
}.

(** The JSON bodies the handlers send. *)
Inductive Json :=
| JMessage (message : string)
| JErrors (errors : list string)
| JSubmission (s : Submission.t)
| JMessageSubmission (message : string) (s : Submission.t)
| JMessageUrl (message : string) (key : string) (url : string).

Record Response := mkRes { statusCode : nat; json : Json }.

(** What a middleware does: answer, or call [next()] with the request. *)
Inductive Step :=
| Respond (res : Response)
| Next (req : Request).

(** [jsonwebtoken]: the errors [jwt.verify] throws, and its result. *)
Inductive JwtError := JsonWebTokenError | TokenExpiredError | NotBeforeError.

Inductive Verified :=
| Decoded (id : ObjectId)
| Thrown (e : JwtError).

(** The answers of the outside world during one request. *)
Record Outside := mkOut {
  objectId : ObjectId;          (* the [_id] given to a new document *)
  cloudinary : option string;   (* [secure_url], [None] when the upload fails *)
  axios : bool                  (* the annotated image was fetched
                                   ([axios.get]) and embedded ([doc.image]) *)
}.

Definition set_user (u : User.t) (req : Request) : Request :=
  mkReq (cookies req) (headers req) (params_id req) (body req) (file req)
        (Some u).

(** ** [middleware/auth.js] *)

Section Middleware.

(** [fun token => jwt.verify(token, process.env.JWT_SECRET)] *)
Variable jwt_verify : string -> Verified.

(** The strings Mongoose casts to an ObjectId. *)
Variable isObjectId : string -> bool.

(** Lines 7-13: the token the verifier looks at. *)
Definition token_of (req : Request) : option string :=
  let token := Js.or (cookies req ≫= (.!! "token")) None in
  if negb (Js.truthy token) && Js.truthy (headers req !! "authorization")
  then
    match headers req !! "authorization" with
    | Some authHeader =>
        if Js.startsWith authHeader "Bearer "
        then Js.split " " authHeader !! 1%nat
        else token
    | None => token
    end
  else token.

Definition authenticateToken (users : gmap string User.t) (req : Request)
  : Step :=
  let token := token_of req in
  if negb (Js.truthy token) then
    Respond (mkRes 401 (JMessage "Access denied. No token provided."))
  else
    match jwt_verify (default "" token) with
    | Thrown _ =>
        Respond (mkRes 401 (JMessage "Token is invalid or expired."))
    | Decoded id =>
        match users !! id with
        | Some u => Next (set_user u req)
        | None =>
            if isObjectId id then
              Respond (mkRes 401 (JMessage "User not found. Invalid token."))
            else
              (* [User.findById] throws; the outer [catch], lines 33-36 *)
              Respond
                (mkRes 500 (JMessage "Server error in authentication."))
        end
    end.

Definition authorizeRoles (roles : list string) (req : Request) : Step :=
  match user req with
  | None => Respond (mkRes 401 (JMessage "Authentication required."))
  | Some u =>
      if negb (Js.includes roles (User.role u)) then
        Respond
          (mkRes 403 (JMessage "Access denied. Insufficient permissions."))
      else Next req
  end.

End Middleware.

(** ** Routes *)

Section Routes.

Variable jwt_verify : string -> Verified.
Variable isObjectId : string -> bool.

(** [validator.isEmail], used by [body('email').isEmail()]. *)
Variable isEmail : string -> bool.

(** What a handler leaves behind: the database and the response written,
    [None] when the request is never answered. *)
Definition Result : Type := Db * option Response.

Definition send (db : Db) (code : nat) (j : Json) : Result :=
  (db, Some (mkRes code j)).

(** [await submission.save()]: the document is stored under its [_id].
    A document that was loaded from the collection passed the schema when
    it was stored, and the handlers then assign only paths without
    validator and [status] values of the enum, so that saving it again
    does not fail; a new document is validated by the handler that
    creates it ([Submission.validate]). *)
Definition save (s : Submission.t) (db : Db) : Db :=
  mkDb (Users db) (<[Submission._id s := s]> (Submissions db)).

(** What a query by [_id] gives: a document, [null], or a [CastError]
    thrown because the id is no ObjectId. *)
Inductive Query :=
| Doc (s : Submission.t)
| NoDoc
| CastError.

(** [Submission.findById(id)] *)
Definition findById (db : Db) (id : string) : Query :=
  match Submissions db !! id with
  | Some s => Doc s
  | None => if isObjectId id then NoDoc else CastError
  end.

(** [Submission.findOne({ _id: id, patient: owner })] *)
Definition findOne (db : Db) (id owner : string) : Query :=
  match Submissions db !! id with
  | Some s => if String.eqb (Submission.patient s) owner then Doc s else NoDoc
  | None => if isObjectId id then NoDoc else CastError
  end.

(** A route: the middlewares in order, then the handler. *)
Fixpoint route (mws : list (Request -> Step)) (h : Request -> Result)
    (db : Db) (req : Request) : Result :=
  match mws with
  | [] => h req
  | mw :: rest =>
      match mw req with
      | Respond res => (db, Some res)
      | Next req' => route rest h db req'
      end
  end.

(** [authenticateToken, authorizeRoles(r)], the head of every route. *)
Definition gate (r : string) (db : Db) : list (Request -> Step) :=
  [authenticateToken jwt_verify isObjectId (Users db); authorizeRoles [r]].

(** *** [routes/patient.js] *)

(** multer: [fileFilter] and [limits.fileSize]; an error goes to the
    error-handling middleware of [server.js]. *)
Definition upload_single (req : Request) : Step :=
  match file req with
  | None => Next req
  | Some f =>
      if negb (Js.startsWith (mimetype f) "image/") then
        Respond (mkRes 500 (JMessage "Something went wrong!"))
      else if (5 * 1024 * 1024 <? size f)%N then
        Respond (mkRes 500 (JMessage "Something went wrong!"))
      else Next req
  end.

(** The express-validator chain of [POST /upload]:
    [errors.array()], here the messages only. *)
Definition upload_errors (req : Request) : list string :=
  (if Js.truthy (body req !! "name") then [] else ["Name is required"])
  ++ (if Js.truthy (body req !! "patientId") then []
      else ["Patient ID is required"])
  ++ (if isEmail (default "" (body req !! "email")) then []
      else ["Valid email is required"]).

Definition server_error (db : Db) : Result :=
  send db 500 (JMessage "Server error").

Definition not_found (db : Db) : Result :=
  send db 404 (JMessage "Submission not found").

(** [POST /upload], lines 38-86. *)
Definition upload_handler (out : Outside) (db : Db) (req : Request)
  : Result :=
  match upload_errors req with
  | (_ :: _) as errs => send db 400 (JErrors errs)
  | [] =>
      match file req with
      | None => send db 400 (JMessage "Image file is required")
      | Some _ =>
          match cloudinary out with
          | None => server_error db
          | Some secure_url =>
              match user req with
              | None => server_error db
              | Some u =>
                  let submission :=
                    Submission.new (objectId out) (User._id u)
                      (default "" (body req !! "name"))
                      (default "" (body req !! "patientId"))
                      (default "" (body req !! "email"))
                      (body req !! "note") secure_url in
                  if negb (Submission.validate submission) then
                    server_error db   (* ValidationError *)
                  else
                  match Submissions db !! objectId out with
                  | Some _ => server_error db   (* duplicate key *)
                  | None =>
                      send (save submission db) 201
                        (JMessageSubmission
                           "Submission uploaded successfully" submission)
                  end
              end
          end
      end
  end.

Definition upload (out : Outside) (db : Db) : Request -> Result :=
  route (gate "patient" db ++ [upload_single]) (upload_handler out db) db.

(** [GET /submissions/:id], lines 99-114. *)
Definition get_submission_handler (db : Db) (req : Request) : Result :=
  match user req with
  | None => server_error db
  | Some u =>
      match findOne db (params_id req) (User._id u) with
      | CastError => server_error db
      | NoDoc => not_found db
      | Doc submission => send db 200 (JSubmission submission)
      end
  end.

Definition get_submission (db : Db) : Request -> Result :=
  route (gate "patient" db) (get_submission_handler db) db.

(** [POST /save-annotated/:id], lines 116-154. *)
Definition save_annotated_handler (out : Outside) (db : Db) (req : Request)
  : Result :=
  if negb (Js.truthy (body req !! "annotatedImageData")) then
    send db 400 (JMessage "Annotated image data is required")
  else
    match user req with
    | None => server_error db
    | Some u =>
        match findOne db (params_id req) (User._id u) with
        | CastError => server_error db
        | NoDoc => not_found db
        | Doc submission =>
            match cloudinary out with
            | None => server_error db
            | Some secure_url =>
                send (save (Submission.set_annotated secure_url submission) db)
                  200
                  (JMessageUrl "Annotated image saved successfully"
                     "annotatedImageUrl" secure_url)
            end
        end
    end.

Definition save_annotated (out : Outside) (db : Db) : Request -> Result :=
  route (gate "patient" db) (save_annotated_handler out db) db.

(** [POST /generate-report/:id], lines 157-213: the upload is awaited
    inside the listener of the document's ['end'] event, out of reach of
    the handler's [try]; when it rejects nothing is written to [res]. *)
Definition generate_report_handler (out : Outside) (db : Db) (req : Request)
  : Result :=
  match user req with
  | None => server_error db
  | Some u =>
      match findOne db (params_id req) (User._id u) with
      | CastError => server_error db
      | NoDoc => not_found db
      | Doc submission =>
          match cloudinary out with
          | None => (db, None)
          | Some secure_url =>
              send (save (Submission.set_reported secure_url submission) db)
                200
                (JMessageUrl "Report generated successfully" "reportUrl"
                   secure_url)
          end
      end
  end.

Definition generate_report (out : Outside) (db : Db) : Request -> Result :=
  route (gate "patient" db) (generate_report_handler out db) db.

(** [POST /generate-report/:id], the [upload_stream] variant
    (lines 309-347 and 436-474): the outcome of the upload arrives in a
    callback that tests [err]. *)
Definition generate_report_stream_handler (out : Outside) (db : Db)
    (req : Request) : Result :=
  match user req with
  | None => server_error db
  | Some u =>
      match findOne db (params_id req) (User._id u) with
      | CastError => server_error db
      | NoDoc => not_found db
      | Doc submission =>
          match cloudinary out with
          | None => send db 500 (JMessage "Failed to upload PDF")
          | Some secure_url =>
              send (save (Submission.set_reported secure_url submission) db)
                200
                (JMessageUrl "Report generated successfully" "reportUrl"
                   secure_url)
          end
      end
  end.

Definition generate_report_stream (out : Outside) (db : Db)
  : Request -> Result :=
  route (gate "patient" db) (generate_report_stream_handler out db) db.

(** *** [routes/admin.js] *)

(** [GET /submissions/:id], lines 26-37.  The document is sent as stored:
    [populate('patient', ...)], which replaces the owner's id by part of
    the user document in the response, is left out. *)
Definition admin_get_handler (db : Db) (req : Request) : Result :=
  match findById db (params_id req) with
  | CastError => server_error db
  | NoDoc => not_found db
  | Doc submission => send db 200 (JSubmission submission)
  end.

Definition admin_get (db : Db) : Request -> Result :=
  route (gate "admin" db) (admin_get_handler db) db.

Definition annotate_errors (req : Request) : list string :=
  (if Js.truthy (body req !! "annotationJson") then []
   else ["Annotation JSON is required"])
  ++ (if Js.truthy (body req !! "annotatedImage") then []
      else ["Annotated image is required"]).

(** [POST /submissions/:id/annotate], lines 39-73. *)
Definition annotate_handler (out : Outside) (db : Db) (req : Request)
  : Result :=
  match annotate_errors req with
  | (_ :: _) as errs => send db 400 (JErrors errs)
  | [] =>
      match findById db (params_id req) with
      | CastError => server_error db
      | NoDoc => not_found db
      | Doc submission =>
          match cloudinary out with
          | None => server_error db
          | Some secure_url =>
              let submission' :=
                Submission.set_annotated secure_url
                  (Submission.set_annotationJson
                     (body req !! "annotationJson") submission) in
              send (save submission' db) 200
                (JMessageSubmission "Annotation saved successfully"
                   submission')
          end
      end
  end.

Definition annotate (out : Outside) (db : Db) : Request -> Result :=
  route (gate "admin" db) (annotate_handler out db) db.

(** [POST /submissions/:id/generate-pdf], lines 76-162. *)
Definition generate_pdf_handler (out : Outside) (db : Db) (req : Request)
  : Result :=
  match findById db (params_id req) with
  | CastError => server_error db
  | NoDoc => not_found db
  | Doc submission =>
      if negb (Js.truthy (Submission.annotatedImageUrl submission)) then
        send db 400
          (JMessage "Annotated image is required to generate PDF")
      else if negb (axios out) then server_error db
      else
        match cloudinary out with
        | None => send db 500 (JMessage "Failed to upload PDF")
        | Some secure_url =>
            send (save (Submission.set_reported secure_url submission) db)
              200
              (JMessageUrl "PDF generated successfully" "reportUrl"
                 secure_url)
        end
  end.

Definition generate_pdf (out : Outside) (db : Db) : Request -> Result :=
  route (gate "admin" db) (generate_pdf_handler out db) db.

(** *** The server as a transition system *)

Inductive Endpoint :=
| PatientUpload
| PatientGetSubmission
| PatientSaveAnnotated
| PatientGenerateReport
| PatientGenerateReportStream
| AdminGetSubmission
| AdminAnnotate
| AdminGeneratePdf.

Record Call := mkCall
  { endpoint : Endpoint; request : Request; outside : Outside }.

Definition serve (db : Db) (c : Call) : Result :=
  match endpoint c with
  | PatientUpload => upload (outside c) db (request c)
  | PatientGetSubmission => get_submission db (request c)
  | PatientSaveAnnotated => save_annotated (outside c) db (request c)
  | PatientGenerateReport => generate_report (outside c) db (request c)
  | PatientGenerateReportStream =>
      generate_report_stream (outside c) db (request c)
  | AdminGetSubmission => admin_get db (request c)
  | AdminAnnotate => annotate (outside c) db (request c)
  | AdminGeneratePdf => generate_pdf (outside c) db (request c)
  end.

(** The database after a sequence of calls. *)
Definition run (db : Db) (cs : list Call) : Db :=
  fold_left (fun d c => fst (serve d c)) cs db.

(** Databases the server can be in: it starts with no submission, serves
    calls, and the users collection may change between calls (registration
    is the business of [routes/auth.js]). *)
Inductive reachable : Db -> Prop :=
| reach_start users : reachable (mkDb users ∅)
| reach_serve db c : reachable db -> reachable (fst (serve db c))
| reach_users db users : reachable db -> reachable
  (mkDb users (Submissions db)).

End Routes.

(** ** What one call can do to the database

    [Effect db e db']: the ways endpoint [e] can turn [db] into [db'].
    Every handler falls under one constructor ([serve_effect] below). *)

Definition is_report (e : Endpoint) : Prop :=
  e = PatientGenerateReport \/ e = PatientGenerateReportStream \/
  e = AdminGeneratePdf.

Inductive Effect (db : Db) : Endpoint -> Db -> Prop :=
| E_unchanged e : Effect db e db
| E_created s :
    Submissions db !! Submission._id s = None ->
    Submission.status s = "uploaded" ->
    Submission.annotatedImageUrl s = None ->
    Submission.reportUrl s = None ->
    Effect db PatientUpload (save s db)
| E_save_annotated id s url :
    Submissions db !! id = Some s ->
    Effect db PatientSaveAnnotated (save (Submission.set_annotated url s) db)
| E_annotated id s url j :
    Submissions db !! id = Some s ->
    Effect db AdminAnnotate
      (save (Submission.set_annotated url (Submission.set_annotationJson j s))
         db)
| E_reported e id s url :
    is_report e ->
    Submissions db !! id = Some s ->
    Effect db e (save (Submission.set_reported url s) db).

(** Every document is stored under its own [_id]. *)
Definition keyed (db : Db) : Prop :=
  forall id s, Submissions db !! id = Some s -> Submission._id s = id.

(** Position of a status along uploaded -> annotated -> reported. *)
Definition rank (st : string) : nat :=
  if String.eqb st "uploaded" then 0
  else if String.eqb st "annotated" then 1
  else 2.

(** The request passed the credential verifier as user [u]. *)
Definition signed_in (jwt_verify : string -> Verified)
    (isObjectId : string -> bool)
    (users : gmap string User.t) (req : Request) (u : User.t) : Prop :=
  authenticateToken jwt_verify isObjectId users req = Next (set_user u req).

(** What holds of every submission of a database the server can be in. *)
Definition lifecycle_inv (db : Db) : Prop :=
  keyed db /\
  forall id s, Submissions db !! id = Some s ->
    Submission.status s ∈ Submission.status_enum /\
    (Submission.status s = "reported" -> is_Some (Submission.reportUrl s)) /\
    (is_Some (Submission.annotatedImageUrl s) ->
     Submission.status s <> "uploaded").

(** How one call can change a stored submission [s] into [s']. *)
Definition change (e : Endpoint) (s s' : Submission.t) : Prop :=
  s' = s \/
  (e = PatientSaveAnnotated /\
   exists url, s' = Submission.set_annotated url s) \/
  (e = AdminAnnotate /\
   exists url j,
     s' = Submission.set_annotated url (Submission.set_annotationJson j s)) \/
  (is_report e /\ exists url, s' = Submission.set_reported url s).

(** ** A concrete deployment, for examples *)

Module Demo.

(** ObjectIds, 24 hexadecimal digits each. *)
Definition alice_id : string := "65a1ce000000000000000001".
Definition bob_id : string := "65b0b0000000000000000002".
Definition root_id : string := "65ad00000000000000000003".
Definition gone_id : string := "65dead000000000000000009".
Definition sid : string := "6650000000000000000000a1".

(** A stand-in for the cast: 24 hexadecimal digits. *)
Definition isObjectId (s : string) : bool :=
  Nat.eqb (String.length s) 24
  && forallb (fun c : ascii =>
                let n := nat_of_ascii c in
                (Nat.leb 48 n && Nat.leb n 57) ||
                  (Nat.leb 97 n && Nat.leb n 102)
                || (Nat.leb 65 n && Nat.leb n 70))
       (list_ascii_of_string s).

Definition jwt_verify (t : string) : Verified :=
  if String.eqb t "tok-alice" then Decoded alice_id
  else if String.eqb t "tok-odd" then Decoded "not-an-object-id"
  else if String.eqb t "tok-bob" then Decoded bob_id
  else if String.eqb t "tok-root" then Decoded root_id
  else if String.eqb t "tok-gone" then Decoded gone_id
  else if String.eqb t "tok-old" then Thrown TokenExpiredError
  else Thrown JsonWebTokenError.

(** A crude stand-in for [validator.isEmail]: one [@], text on both
    sides. *)
Definition isEmail (s : string) : bool :=
  match Js.split "@" s with
  | [a; b] => negb (String.eqb a "") && negb (String.eqb b "")
  | _ => false
  end.

Definition alice : User.t :=
  User.mk alice_id "Jane Doe" (Some "P-100") "jane@x.com"
    "$2a$10$hash" "patient".
Definition bob : User.t :=
  User.mk bob_id "Bob Ray" (Some "P-200") "bob@x.com" "$2a$10$hash" "patient".
Definition root : User.t :=
  User.mk root_id "Root" None "root@x.com" "$2a$10$hash" "admin".

Definition users : gmap string User.t :=
  <[alice_id := alice]> (<[bob_id := bob]> (<[root_id := root]> ∅)).

(** A request carrying [t] in the [token] cookie. *)
Definition with_cookie (t id : string) (b : gmap string string)
    (f : option File) : Request :=
  mkReq (Some {["token" := t]}) ∅ id b f None.

(** A request carrying one token in the cookie and another in the
    header. *)
Definition with_both (t h id : string) : Request :=
  mkReq (Some {["token" := t]}) {["authorization" := h]} id ∅ None None.

(** A request carrying [h] in the [Authorization] header. *)
Definition with_header (h id : string) : Request :=
  mkReq None {["authorization" := h]} id ∅ None None.

Definition jane_form : gmap string string :=
  <["name" := "Jane Doe"]> (<["patientId" := "P-100"]>
    (<["email" := "jane@x.com"]> (<["note" := ""]> ∅))).

Definition png : File := mkFile "image/png" "tooth.png" 2048.

Definition ok (url : string) : Outside := mkOut sid (Some url) true.
Definition store_down : Outside := mkOut sid None true.

Definition call_upload : Call :=
  mkCall PatientUpload (with_cookie "tok-alice" "" jane_form (Some png))
    (ok "https://cdn/s1.png").
Definition call_get : Call :=
  mkCall PatientGetSubmission (with_cookie "tok-alice" sid ∅ None)
    (ok "").
Definition call_save_annotated : Call :=
  mkCall PatientSaveAnnotated
    (with_cookie "tok-alice" sid
       {["annotatedImageData" := "data:image/png;base64,AAAA"]} None)
    (ok "https://cdn/s1-annotated.png").
Definition call_report : Call :=
  mkCall PatientGenerateReport (with_cookie "tok-alice" sid ∅ None)
    (ok "https://cdn/s1-report.pdf").
Definition call_pdf : Call :=
  mkCall AdminGeneratePdf (with_cookie "tok-root" sid ∅ None)
    (ok "https://cdn/report-s1.pdf").

Definition db0 : Db := mkDb users ∅.
Definition db_uploaded : Db := run jwt_verify isObjectId isEmail db0
  [call_upload].
Definition db_annotated : Db :=
  run jwt_verify isObjectId isEmail db0 [call_upload; call_save_annotated].
Definition db_reported : Db :=
  run jwt_verify isObjectId isEmail db0 [call_upload; call_report].
Definition db_reannotated : Db :=
  run jwt_verify isObjectId isEmail db0
    [call_upload; call_report; call_save_annotated].

Definition call_annotate : Call :=
  mkCall AdminAnnotate
    (with_cookie "tok-root" sid
       (<["annotationJson" := "{}"]>
          {["annotatedImage" := "data:image/png;base64,BBBB"]}) None)
    (ok "https://cdn/s1-marked.png").

(** bob asks to save an annotated image on alice's submission, without
    sending one. *)
Definition call_bob_save_nothing : Call :=
  mkCall PatientSaveAnnotated (with_cookie "tok-bob" sid ∅ None)
    (ok "https://cdn/never.png").

(** alice asks for her report while the artifact store is down. *)
Definition call_report_store_down : Call :=
  mkCall PatientGenerateReport (with_cookie "tok-alice" sid ∅ None)
    store_down.

Definition db_annotated_reported : Db :=
  run jwt_verify isObjectId isEmail db0
    [call_upload; call_save_annotated; call_report].

(** The document alice's upload creates. *)
Definition s1 : Submission.t :=
  Submission.new sid alice_id "Jane Doe" "P-100" "jane@x.com" (Some "")
    "https://cdn/s1.png".

(** That document once alice's report is generated. *)
Definition s1_reported : Submission.t :=
  Submission.set_reported "https://cdn/s1-report.pdf" s1.

(** The [status] stored for submission [id]. *)
Definition status_of (db : Db) (id : string) : option string :=
  Submission.status <$> Submissions db !! id.

End Demo.

(** ** The other versions of the middleware and of the upload route *)

(** [s] holds the character [c]. *)
Fixpoint has_char (c : ascii) (s : string) : bool :=
  match s with
  | EmptyString => false
  | String c' rest => Ascii.eqb c' c || has_char c rest
  end.

(** The role each endpoint is gated on. *)
Definition endpoint_role (e : Endpoint) : string :=
  match e with
  | AdminGetSubmission | AdminAnnotate | AdminGeneratePdf => "admin"
  | _ => "patient"
  end.

(** [middleware/auth.js], second version (lines 57-77): one [try] around
    everything, so that whatever is thrown is answered 401; no test of the
    scheme of the [Authorization] header; [req.cookies.token] without
    [?.], which throws when no cookie parser ran. *)
Module AuthV2.
Section Middleware.

Variable jwt_verify : string -> Verified.

Definition token_of (c : gmap string string) (req : Request) : option string :=
  Js.or (c !! "token")
    (headers req !! "authorization" ≫= (fun h => Js.split " " h !! 1%nat)).

Definition authenticateToken (users : gmap string User.t) (req : Request)
  : Step :=
  match cookies req with
  | None => Respond (mkRes 401 (JMessage "Invalid token."))
  | Some c =>
      let token := token_of c req in
      if negb (Js.truthy token) then
        Respond (mkRes 401 (JMessage "Access denied. No token provided."))
      else
        match jwt_verify (default "" token) with
        | Thrown _ => Respond (mkRes 401 (JMessage "Invalid token."))
        | Decoded id =>
            match users !! id with
            | None => Respond (mkRes 401 (JMessage "Invalid token."))
            | Some u => Next (set_user u req)
            end
        end
  end.

End Middleware.
End AuthV2.

Section UploadVersions.

Variable jwt_verify : string -> Verified.
Variable isObjectId : string -> bool.
Variable isEmail : string -> bool.

(** [POST /upload], second version (lines 238-285).  The fields are
    tested by hand; the upload goes through [upload_stream]; after
    [new Submission(...)] the statement [ns] reads a name that is declared
    nowhere, which throws before [submission.save()] is reached.  The
    [catch] answers 500 with the message of what was thrown,
    [error_message], or "Server error" when that is empty. *)
Definition upload_v2_handler (error_message : option string) (out : Outside)
    (db : Db) (req : Request) : Result :=
  if negb (Js.truthy (body req !! "name"))
     || negb (Js.truthy (body req !! "patientId"))
     || negb (Js.truthy (body req !! "email"))
  then send db 400 (JMessage "Missing required fields")
  else
    match file req with
    | None => send db 400 (JMessage "Image file is required")
    | Some _ =>
        let caught :=
          send db 500
            (JMessage
               (default "Server error"
                  (Js.or error_message (Some "Server error")))) in
        match cloudinary out with
        | None => caught          (* the promise rejects *)
        | Some _ => caught        (* [ns] throws *)
        end
    end.

Definition upload_v2 (error_message : option string) (out : Outside)
    (db : Db) : Request -> Result :=
  route (gate jwt_verify isObjectId "patient" db ++ [upload_single])
    (upload_v2_handler error_message out db) db.

(** [POST /upload], third version (lines 372-412): the validators of the
    first version without their messages, the handler of the first
    version. *)
Definition upload_v3_errors (req : Request) : list string :=
  (if Js.truthy (body req !! "name") then [] else ["Invalid value"])
  ++ (if Js.truthy (body req !! "patientId") then [] else ["Invalid value"])
  ++ (if isEmail (default "" (body req !! "email")) then []
      else ["Invalid value"]).

Definition upload_v3_handler (out : Outside) (db : Db) (req : Request)
  : Result :=
  match upload_v3_errors req with
  | (_ :: _) as errs => send db 400 (JErrors errs)
  | [] =>
      match file req with
      | None => send db 400 (JMessage "Image file is required")
      | Some _ =>
          match cloudinary out with
          | None => server_error db
          | Some secure_url =>
              match user req with
              | None => server_error db
              | Some u =>
                  let submission :=
                    Submission.new (objectId out) (User._id u)
                      (default "" (body req !! "name"))
                      (default "" (body req !! "patientId"))
                      (default "" (body req !! "email"))
                      (body req !! "note") secure_url in
                  if negb (Submission.validate submission) then
                    server_error db
                  else
                  match Submissions db !! objectId out with
                  | Some _ => server_error db
                  | None =>
                      send (save submission db) 201
                        (JMessageSubmission
                           "Submission uploaded successfully" submission)
                  end
              end
          end
      end
  end.

Definition upload_v3 (out : Outside) (db : Db) : Request -> Result :=
  route (gate jwt_verify isObjectId "patient" db ++ [upload_single])
    (upload_v3_handler out db) db.

End UploadVersions.

(** What an endpoint runs once the gate has let the request through. *)
Definition after_gate (isObjectId : string -> bool)
    (isEmail : string -> bool) (e : Endpoint)
    (out : Outside) (db : Db) : Request -> Result :=
  match e with
  | PatientUpload => route [upload_single] (upload_handler isEmail out db) db
  | PatientGetSubmission => get_submission_handler isObjectId db
  | PatientSaveAnnotated => save_annotated_handler isObjectId out db
  | PatientGenerateReport => generate_report_handler isObjectId out db
  | PatientGenerateReportStream => generate_report_stream_handler
    isObjectId out db
  | AdminGetSubmission => admin_get_handler isObjectId db
  | AdminAnnotate => annotate_handler isObjectId out db
  | AdminGeneratePdf => generate_pdf_handler isObjectId out db
  end.

(** The document [POST /upload] builds from the form of [req] for the
    signed-in user [u] once the image is stored at [url]. *)
Definition uploaded_document (u : User.t) (req : Request) (out : Outside)
    (url : string) : Submission.t :=
  Submission.new (objectId out) (User._id u)
    (default "" (body req !! "name"))
    (default "" (body req !! "patientId"))
    (default "" (body req !! "email"))
    (body req !! "note") url.

(** Everything [POST /upload] tests before it stores a document: a
    signed-in patient, the three form fields, an image within the size
    limit, an artifact store that accepts it, a document the schema
    accepts (email and image reference not empty), an [_id] not yet in
    use. *)
Definition accepted_upload (jwt_verify : string -> Verified)
    (isObjectId : string -> bool)
    (isEmail : string -> bool) (db : Db) (req : Request) (out : Outside)
    (u : User.t) (f : File) (url : string) : Prop :=
  signed_in jwt_verify isObjectId (Users db) req u /\
  User.role u = "patient" /\
  Js.truthy (body req !! "name") = true /\
  Js.truthy (body req !! "patientId") = true /\
  isEmail (default "" (body req !! "email")) = true /\
  file req = Some f /\ Js.startsWith (mimetype f) "image/" = true /\
  (size f <= 5 * 1024 * 1024)%N /\
  cloudinary out = Some url /\
  default "" (body req !! "email") <> "" /\ url <> "" /\
  Submissions db !! objectId out = None.

(** * Properties *)

(** ** JavaScript helpers *)

Lemma truthy_true (v : option string) :
  Js.truthy v = true <-> exists s, v = Some s /\ s <> "".
Proof.
  destruct v as [s|]; simpl.
  - rewrite negb_true_iff, String.eqb_neq. split.
    + intros H. exists s. auto.
    + intros (s' & [= <-] & H). exact H.
  - split; [discriminate | intros (s & [=] & _)].
Qed.


Lemma truthy_default (v : option string) :
  Js.truthy v = true -> v = Some (default "" v).
Proof. intros (s & -> & _)%truthy_true. reflexivity. Qed.

Lemma includes_elem_of (l : list string) (r : string) :
  Js.includes l r = true <-> r ∈ l.
Proof.
  unfold Js.includes. rewrite existsb_exists, list_elem_of_In. split.
  - intros (x & Hx & ->%String.eqb_eq). exact Hx.
  - intros H. exists r. split; [exact H | apply String.eqb_refl].
Qed.

(** ** The middleware chain *)

Lemma split_no_sep (sep : ascii) (s : string) :
  has_char sep s = false -> Js.split sep s = [s].
Proof.
  induction s as [|c s IH]; simpl; [reflexivity|].
  intros [Hc Hs]%orb_false_iff. rewrite Hc, (IH Hs). reflexivity.
Qed.

Lemma split_sep (sep : ascii) (a b : string) :
  has_char sep a = false ->
  Js.split sep (a ++ String sep b) = a :: Js.split sep b.
Proof.
  induction a as [|c a IH]; simpl.
  - intros _. rewrite Ascii.eqb_refl. reflexivity.
  - intros [Hc Ha]%orb_false_iff. rewrite Hc, (IH Ha). reflexivity.
Qed.

(** The token of a [Bearer] header, when no cookie gives one. *)
Lemma token_of_bearer (req : Request) (t : string) :
  Js.truthy (cookies req ≫= (.!! "token")) = false ->
  headers req !! "authorization" = Some ("Bearer " ++ t) ->
  has_char " " t = false ->
  token_of req = Some t.
Proof.
  intros Hcookie Hhdr Ht. unfold token_of, Js.or.
  rewrite Hcookie, Hhdr. cbn [Js.truthy negb andb].
  assert (Js.startsWith ("Bearer " ++ t) "Bearer " = true) as ->
    by (destruct t; reflexivity).
  assert (negb (String.eqb ("Bearer " ++ t) "") = true) as -> by reflexivity.
  change ("Bearer " ++ t) with ("Bearer" ++ String " " t).
  rewrite (split_sep " " "Bearer" t) by reflexivity.
  rewrite (split_no_sep _ _ Ht).
  reflexivity.
Qed.

Section MiddlewareFacts.

Variable jwt_verify : string -> Verified.
Variable isObjectId : string -> bool.
Variable users : gmap string User.t.

Lemma authenticate_cases (req : Request) :
  authenticateToken jwt_verify isObjectId users req =
  match token_of req with
  | None => Respond (mkRes 401 (JMessage "Access denied. No token provided."))
  | Some t =>
      if String.eqb t "" then
        Respond (mkRes 401 (JMessage "Access denied. No token provided."))
      else
        match jwt_verify t with
        | Thrown _ =>
            Respond (mkRes 401 (JMessage "Token is invalid or expired."))
        | Decoded id =>
            match users !! id with
            | Some u => Next (set_user u req)
            | None =>
                if isObjectId id then
                  Respond
                    (mkRes 401 (JMessage "User not found. Invalid token."))
                else
                  Respond
                    (mkRes 500 (JMessage "Server error in authentication."))
            end
        end
  end.
Proof.
  unfold authenticateToken. destruct (token_of req) as [t|]; simpl.
  - destruct (String.eqb t ""); reflexivity.
  - reflexivity.
Qed.

Lemma authenticate_next (req req' : Request) :
  authenticateToken jwt_verify isObjectId users req = Next req' ->
  exists t id u,
    token_of req = Some t /\ t <> "" /\ jwt_verify t = Decoded id /\
    users !! id = Some u /\ req' = set_user u req.
Proof.
  rewrite authenticate_cases.
  destruct (token_of req) as [t|]; [|discriminate].
  destruct (String.eqb t "") eqn:Et; [discriminate|].
  destruct (jwt_verify t) as [id|e] eqn:Ev; [|discriminate].
  destruct (users !! id) as [u|] eqn:Eu;
    [|destruct (isObjectId id); discriminate].
  intros [= <-]. exists t, id, u. rewrite String.eqb_neq in Et. auto.
Qed.

Lemma authenticate_respond (req : Request) (res : Response) :
  authenticateToken jwt_verify isObjectId users req = Respond res ->
  statusCode res = 401 \/ statusCode res = 500.
Proof.
  rewrite authenticate_cases.
  repeat case_match; intros [= <-]; simpl; auto.
Qed.

(** The verifier answers 500 exactly when the lookup of the decoded id
    throws. *)
Lemma authenticate_500 (req : Request) (res : Response) :
  authenticateToken jwt_verify isObjectId users req = Respond res ->
  statusCode res = 500 ->
  res = mkRes 500 (JMessage "Server error in authentication.") /\
  exists t id,
    token_of req = Some t /\ t <> "" /\ jwt_verify t = Decoded id /\
    users !! id = None /\ isObjectId id = false.
Proof.
  rewrite authenticate_cases.
  destruct (token_of req) as [t|]; [|intros [= <-]; discriminate].
  destruct (String.eqb t "") eqn:Et; [intros [= <-]; discriminate|].
  apply String.eqb_neq in Et.
  destruct (jwt_verify t) as [id|e] eqn:Ev; [|intros [= <-]; discriminate].
  destruct (users !! id) as [u|] eqn:Eu; [discriminate|].
  destruct (isObjectId id) eqn:Ei; intros [= <-]; [discriminate|].
  intros _. split; [reflexivity|]. exists t, id. auto.
Qed.


End MiddlewareFacts.




(** C8. For any list of permitted roles: no identity attached gives 401;
    an identity whose role is not in the list gives 403; otherwise the
    request goes on to [next()] as it came. *)
Theorem role_gate (roles : list string) (req : Request) :
  (user req = None ->
   authorizeRoles roles req =
   Respond (mkRes 401 (JMessage "Authentication required."))) /\
  (forall u, user req = Some u -> User.role u ∉ roles ->
   authorizeRoles roles req =
   Respond (mkRes 403 (JMessage "Access denied. Insufficient permissions."))) /\
  (forall u, user req = Some u -> User.role u ∈ roles ->
   authorizeRoles roles req = Next req).
Proof.
  unfold authorizeRoles. split; [|split].
  - intros ->. reflexivity.
  - intros u -> Hnot.
    destruct (Js.includes roles (User.role u)) eqn:E; [|reflexivity].
    apply includes_elem_of in E. contradiction.
  - intros u -> Hin. apply includes_elem_of in Hin. rewrite Hin. reflexivity.
Qed.

Lemma role_gate_witness :
  authorizeRoles ["admin"] (Demo.with_cookie "tok-root" Demo.sid ∅ None) =
    Respond (mkRes 401 (JMessage "Authentication required.")) /\
  authorizeRoles ["admin"]
    (set_user Demo.alice (Demo.with_cookie "tok-alice" Demo.sid ∅ None)) =
    Respond (mkRes 403 (JMessage "Access denied. Insufficient permissions."))
  /\
  authorizeRoles ["patient"; "admin"]
    (set_user Demo.root (Demo.with_cookie "tok-root" Demo.sid ∅ None)) =
    Next (set_user Demo.root (Demo.with_cookie "tok-root" Demo.sid ∅ None)).
Proof.
  split; [|split].
  - apply (proj1 (role_gate ["admin"]
                    (Demo.with_cookie "tok-root" Demo.sid ∅ None))).
    reflexivity.
  - apply (proj1 (proj2 (role_gate ["admin"]
             (set_user Demo.alice
                (Demo.with_cookie "tok-alice" Demo.sid ∅ None))))
             Demo.alice).
    + reflexivity.
    + rewrite list_elem_of_singleton. discriminate.
  - apply (proj2 (proj2 (role_gate ["patient"; "admin"]
             (set_user Demo.root
                (Demo.with_cookie "tok-root" Demo.sid ∅ None))))
             Demo.root).
    + reflexivity.
    + rewrite !elem_of_cons. right; left. reflexivity.
Defined.

(** C10. A gate built from no role answers 403 to every request that has
    an identity attached. *)
Theorem role_gate_empty (req : Request) (u : User.t) :
  user req = Some u ->
  authorizeRoles [] req =
  Respond (mkRes 403 (JMessage "Access denied. Insufficient permissions.")).
Proof. unfold authorizeRoles. intros ->. reflexivity. Qed.

Lemma role_gate_empty_witness :
  authorizeRoles [] (set_user Demo.root
    (Demo.with_cookie "tok-root" Demo.sid ∅ None)) =
  Respond (mkRes 403 (JMessage "Access denied. Insufficient permissions.")).
Proof.
  apply (role_gate_empty
           (set_user Demo.root (Demo.with_cookie "tok-root" Demo.sid ∅ None))
           Demo.root).
  reflexivity.
Defined.

(** ** Routes: what a call does to the database *)

Lemma findOne_Doc (isObjectId : string -> bool) (db : Db)
    (id owner : string) (s : Submission.t) :
  findOne isObjectId db id owner = Doc s <->
  Submissions db !! id = Some s /\ Submission.patient s = owner.
Proof.
  unfold findOne. destruct (Submissions db !! id) as [s0|].
  - destruct (String.eqb (Submission.patient s0) owner) eqn:E.
    + apply String.eqb_eq in E. split.
      * intros [= <-]. auto.
      * intros [[= <-] _]. reflexivity.
    + apply String.eqb_neq in E. split; [discriminate|].
      intros [[= <-] H]. contradiction.
  - destruct (isObjectId id); split; try discriminate; intros [[=] _].
Qed.

Lemma findOne_other (isObjectId : string -> bool) (db : Db)
    (id owner : string) (s : Submission.t) :
  Submissions db !! id = Some s -> Submission.patient s <> owner ->
  findOne isObjectId db id owner = NoDoc.
Proof.
  intros Hs Hne. unfold findOne. rewrite Hs.
  apply String.eqb_neq in Hne. rewrite Hne. reflexivity.
Qed.

Lemma validate_new (oid patient name patientId email url : string)
    (note : option string) :
  name <> "" -> patientId <> "" -> email <> "" -> url <> "" ->
  Submission.validate
    (Submission.new oid patient name patientId email note url) = true.
Proof.
  intros Hn Hp He Hu. unfold Submission.validate. simpl.
  apply String.eqb_neq in Hn, Hp, He, Hu. rewrite Hn, Hp, He, Hu.
  reflexivity.
Qed.

Lemma validate_new_inv (oid patient name patientId email url : string)
    (note : option string) :
  Submission.validate
    (Submission.new oid patient name patientId email note url) = true ->
  email <> "" /\ url <> "".
Proof.
  unfold Submission.validate. simpl.
  rewrite !andb_true_iff, !negb_true_iff, !String.eqb_neq. tauto.
Qed.

Lemma findById_Doc (isObjectId : string -> bool) (db : Db) (id : string)
    (s : Submission.t) :
  findById isObjectId db id = Doc s <-> Submissions db !! id = Some s.
Proof.
  unfold findById. destruct (Submissions db !! id) as [s0|].
  - split; intros [= <-]; reflexivity.
  - destruct (isObjectId id); split; discriminate.
Qed.

Section RouteFacts.

Variable jwt_verify : string -> Verified.
Variable isObjectId : string -> bool.
Variable isEmail : string -> bool.

(** The head of a route lets a request through as [u] when it is signed
    in as [u] and [u] has the role of the route. *)
Lemma gate_pass (r : string) (db : Db) (mws : list (Request -> Step))
    (h : Request -> Result) (req : Request) (u : User.t) :
  signed_in jwt_verify isObjectId (Users db) req u -> User.role u = r ->
  route (gate jwt_verify isObjectId r db ++ mws) h db req =
  route mws h db (set_user u req).
Proof.
  unfold signed_in. intros Hin Hr. simpl. rewrite Hin.
  unfold authorizeRoles. simpl. rewrite Hr, String.eqb_refl. reflexivity.
Qed.

Lemma gate_block (r : string) (db : Db) (mws : list (Request -> Step))
    (h : Request -> Result) (req : Request) (u : User.t) :
  signed_in jwt_verify isObjectId (Users db) req u -> User.role u <> r ->
  route (gate jwt_verify isObjectId r db ++ mws) h db req =
  (db, Some (mkRes 403 (JMessage "Access denied. Insufficient permissions."))).
Proof.
  unfold signed_in. intros Hin Hr. simpl. rewrite Hin.
  unfold authorizeRoles. simpl.
  apply String.eqb_neq in Hr. rewrite Hr. reflexivity.
Qed.

(** Either the head of the route answers (401 or 403, database as it
    was), or the rest of the route runs with a user of role [r]
    attached. *)
Lemma gate_cases (r : string) (db : Db) (mws : list (Request -> Step))
    (h : Request -> Result) (req : Request) :
  (exists res,
      route (gate jwt_verify isObjectId r db ++ mws) h db req =
        (db, Some res) /\
      (statusCode res = 401 \/ statusCode res = 403 \/
       statusCode res = 500)) \/
  (exists u,
      signed_in jwt_verify isObjectId (Users db) req u /\ User.role u = r /\
      route (gate jwt_verify isObjectId r db ++ mws) h db req =
      route mws h db (set_user u req)).
Proof.
  destruct (authenticateToken jwt_verify isObjectId (Users db) req) as
    [res|req'] eqn:E.
  - left. exists res. simpl. rewrite E. split; [reflexivity|].
    destruct (authenticate_respond _ _ _ _ _ E) as [H|H]; auto.
  - pose proof E as E'.
    apply authenticate_next in E' as (t & id & u & _ & _ & _ & _ & ->).
    destruct (String.eqb_spec (User.role u) r) as [Hr|Hr].
    + right. exists u. split; [exact E|]. split; [exact Hr|].
      apply gate_pass; assumption.
    + left. eexists. split; [apply (gate_block r db mws h req u E Hr)|].
      right; left. reflexivity.
Qed.

(** The same for a route that has nothing after the gate. *)
Lemma gate_only_cases (r : string) (db : Db) (h : Request -> Result)
    (req : Request) :
  (exists res,
      route (gate jwt_verify isObjectId r db) h db req = (db, Some res) /\
      (statusCode res = 401 \/ statusCode res = 403 \/
       statusCode res = 500)) \/
  (exists u,
      signed_in jwt_verify isObjectId (Users db) req u /\ User.role u = r /\
      route (gate jwt_verify isObjectId r db) h db req = h (set_user u req)).
Proof. exact (gate_cases r db [] h req). Qed.

Ltac through_gate :=
  let res := fresh "res" in
  let u := fresh "u" in
  let Hin := fresh "Hin" in
  let Hr := fresh "Hr" in
  let E := fresh "E" in
  match goal with
  | |- context [route (gate ?j ?i ?r ?db ++ ?mws) ?h ?db ?req] =>
      destruct (gate_cases r db mws h req)
        as [(res & E & _) | (u & Hin & Hr & E)]
  | |- context [route (gate ?j ?i ?r ?db) ?h ?db ?req] =>
      destruct (gate_only_cases r db h req)
        as [(res & E & _) | (u & Hin & Hr & E)]
  end; rewrite E; simpl.

Ltac crunch :=
  unfold server_error, not_found, send;
  repeat case_match; simpl; try constructor.

Lemma upload_effect (out : Outside) (db : Db) (req : Request) :
  Effect db PatientUpload
    (fst (upload jwt_verify isObjectId isEmail out db req)).
Proof.
  unfold upload.
  through_gate; [constructor|].
  unfold upload_handler. crunch; assumption || reflexivity.
Qed.

Lemma get_submission_effect (db : Db) (req : Request) :
  fst (get_submission jwt_verify isObjectId db req) = db.
Proof.
  unfold get_submission.
  through_gate; [reflexivity|].
  unfold get_submission_handler. crunch; reflexivity.
Qed.

Lemma admin_get_effect (db : Db) (req : Request) :
  fst (admin_get jwt_verify isObjectId db req) = db.
Proof.
  unfold admin_get.
  through_gate; [reflexivity|].
  unfold admin_get_handler. crunch; reflexivity.
Qed.

Ltac found :=
  match goal with
  | H : findOne _ _ _ _ = Doc _ |- _ => apply findOne_Doc in H as [H _]
  | H : findById _ _ _ = Doc _ |- _ => apply findById_Doc in H
  end.

Lemma save_annotated_effect (out : Outside) (db : Db) (req : Request) :
  Effect db PatientSaveAnnotated
    (fst (save_annotated jwt_verify isObjectId out db req)).
Proof.
  unfold save_annotated.
  through_gate; [constructor|].
  unfold save_annotated_handler. crunch.
  found. eapply E_save_annotated; eassumption.
Qed.

Lemma generate_report_effect (out : Outside) (db : Db) (req : Request) :
  Effect db PatientGenerateReport
    (fst (generate_report jwt_verify isObjectId out db req)).
Proof.
  unfold generate_report.
  through_gate; [constructor|].
  unfold generate_report_handler. crunch.
  found. eapply E_reported; [unfold is_report; auto | eassumption].
Qed.

Lemma generate_report_stream_effect (out : Outside) (db : Db) (req : Request) :
  Effect db PatientGenerateReportStream
    (fst (generate_report_stream jwt_verify isObjectId out db req)).
Proof.
  unfold generate_report_stream.
  through_gate; [constructor|].
  unfold generate_report_stream_handler. crunch.
  found. eapply E_reported; [unfold is_report; auto | eassumption].
Qed.

Lemma annotate_effect (out : Outside) (db : Db) (req : Request) :
  Effect db AdminAnnotate (fst (annotate jwt_verify isObjectId out db req)).
Proof.
  unfold annotate.
  through_gate; [constructor|].
  unfold annotate_handler. crunch.
  found. eapply E_annotated; eassumption.
Qed.

Lemma generate_pdf_effect (out : Outside) (db : Db) (req : Request) :
  Effect db AdminGeneratePdf
    (fst (generate_pdf jwt_verify isObjectId out db req)).
Proof.
  unfold generate_pdf.
  through_gate; [constructor|].
  unfold generate_pdf_handler. crunch.
  found. eapply E_reported; [unfold is_report; auto | eassumption].
Qed.

Lemma serve_effect (db : Db) (c : Call) :
  Effect db (endpoint c) (fst (serve jwt_verify isObjectId isEmail db c)).
Proof.
  destruct c as [e req out]. unfold serve. simpl. destruct e.
  - apply upload_effect.
  - rewrite get_submission_effect. constructor.
  - apply save_annotated_effect.
  - apply generate_report_effect.
  - apply generate_report_stream_effect.
  - rewrite admin_get_effect. constructor.
  - apply annotate_effect.
  - apply generate_pdf_effect.
Qed.

End RouteFacts.

(** ** Invariants of the submission lifecycle *)

Lemma save_lookup (s0 : Submission.t) (db : Db) (id : string) :
  Submissions (save s0 db) !! id =
  if decide (Submission._id s0 = id) then Some s0 else Submissions db !! id.
Proof. unfold save. simpl. apply lookup_insert. Qed.

(** A call deletes nothing, and changes a stored submission only in one of
    the ways of [change]. *)
Lemma save_lookup_own (db : Db) (id : string) (s s' : Submission.t) :
  keyed db -> Submissions db !! id = Some s ->
  Submission._id s' = Submission._id s ->
  Submissions (save s' db) !! id = Some s'.
Proof.
  intros Hk Hs Hid. rewrite save_lookup, Hid, (Hk _ _ Hs).
  case_decide; [reflexivity | contradiction].
Qed.

Lemma effect_lookup (db db' : Db) (e : Endpoint) (id : string)
    (s : Submission.t) :
  keyed db -> Effect db e db' -> Submissions db !! id = Some s ->
  exists s', Submissions db' !! id = Some s' /\ change e s s'.
Proof.
  intros Hk Heff Hs. unfold change.
  destruct Heff as [e | s0 Hfresh _ _ _ | id0 s0 url H0 | id0 s0 url j H0
                   | e id0 s0 url He H0].
  - exists s. auto.
  - rewrite save_lookup. case_decide as Hd.
    + rewrite Hd, Hs in Hfresh. discriminate.
    + exists s. auto.
  - rewrite save_lookup. simpl. rewrite (Hk _ _ H0). case_decide as Hd.
    + subst id0. rewrite Hs in H0. injection H0 as <-.
      eexists. split; [reflexivity|]. right; left. eauto.
    + exists s. auto.
  - rewrite save_lookup. simpl. rewrite (Hk _ _ H0). case_decide as Hd.
    + subst id0. rewrite Hs in H0. injection H0 as <-.
      eexists. split; [reflexivity|]. right; right; left. eauto.
    + exists s. auto.
  - rewrite save_lookup. simpl. rewrite (Hk _ _ H0). case_decide as Hd.
    + subst id0. rewrite Hs in H0. injection H0 as <-.
      eexists. split; [reflexivity|]. right; right; right. eauto.
    + exists s. auto.
Qed.

(** What is stored after a call was stored before, up to [change], or is
    the document a successful upload created. *)
Lemma effect_lookup_after (db db' : Db) (e : Endpoint) (id : string)
    (s' : Submission.t) :
  keyed db -> Effect db e db' -> Submissions db' !! id = Some s' ->
  (exists s, Submissions db !! id = Some s /\ change e s s') \/
  (Submissions db !! id = None /\ Submission._id s' = id /\
   Submission.status s' = "uploaded" /\
   Submission.annotatedImageUrl s' = None /\
   Submission.reportUrl s' = None).
Proof.
  intros Hk Heff Hs'.
  destruct (Submissions db !! id) as [s|] eqn:Hs.
  - left. exists s. split; [reflexivity|].
    destruct (effect_lookup db db' e id s Hk Heff Hs) as (s1 & H1 & Hc).
    rewrite Hs' in H1. injection H1 as <-. exact Hc.
  - right. split; [reflexivity|].
    destruct Heff as [e | s0 Hfresh Hst Ha Hr | id0 s0 url H0
                     | id0 s0 url j H0 | e id0 s0 url He H0].
    + rewrite Hs in Hs'. discriminate.
    + rewrite save_lookup in Hs'. case_decide as Hd.
      * injection Hs' as <-. auto.
      * rewrite Hs in Hs'. discriminate.
    + rewrite save_lookup in Hs'. simpl in Hs'.
      rewrite (Hk _ _ H0) in Hs'. case_decide as Hd.
      * subst id0. rewrite Hs in H0. discriminate.
      * rewrite Hs in Hs'. discriminate.
    + rewrite save_lookup in Hs'. simpl in Hs'.
      rewrite (Hk _ _ H0) in Hs'. case_decide as Hd.
      * subst id0. rewrite Hs in H0. discriminate.
      * rewrite Hs in Hs'. discriminate.
    + rewrite save_lookup in Hs'. simpl in Hs'.
      rewrite (Hk _ _ H0) in Hs'. case_decide as Hd.
      * subst id0. rewrite Hs in H0. discriminate.
      * rewrite Hs in Hs'. discriminate.
Qed.

Lemma status_enum_elem (st : string) :
  st ∈ Submission.status_enum <->
  st = "uploaded" \/ st = "annotated" \/ st = "reported".
Proof.
  unfold Submission.status_enum. rewrite !elem_of_cons, elem_of_nil. tauto.
Qed.

Lemma effect_inv (db db' : Db) (e : Endpoint) :
  lifecycle_inv db -> Effect db e db' -> lifecycle_inv db'.
Proof.
  intros [Hk Hinv] Heff. split.
  - intros id s' Hs'.
    destruct (effect_lookup_after db db' e id s' Hk Heff Hs')
      as [(s & Hs & Hc) | (_ & Hid & _)]; [|exact Hid].
    pose proof (Hk id s Hs) as Hid.
    destruct Hc as [-> | [(_ & url & ->) | [(_ & url & j & ->)
                   | (_ & url & ->)]]]; exact Hid.
  - intros id s' Hs'.
    destruct (effect_lookup_after db db' e id s' Hk Heff Hs')
      as [(s & Hs & Hc) | (_ & _ & Hst & Ha & Hr)].
    + destruct (Hinv id s Hs) as (He & Hrep & Hann).
      destruct Hc as [-> | [(_ & url & ->) | [(_ & url & j & ->)
                     | (_ & url & ->)]]]; simpl.
      * auto.
      * rewrite status_enum_elem. repeat split; eauto; discriminate.
      * rewrite status_enum_elem. repeat split; eauto; discriminate.
      * rewrite status_enum_elem. repeat split; eauto; discriminate.
    + rewrite Hst, Ha. rewrite status_enum_elem.
      repeat split; auto; try discriminate.
      intros [x [=]].
Qed.

Section Reachability.

Variable jwt_verify : string -> Verified.
Variable isObjectId : string -> bool.
Variable isEmail : string -> bool.

Lemma run_snoc (db : Db) (cs : list Call) (c : Call) :
  run jwt_verify isObjectId isEmail db (cs ++ [c])%list =
  fst (serve jwt_verify isObjectId isEmail
    (run jwt_verify isObjectId isEmail db cs) c).
Proof. unfold run. rewrite fold_left_app. reflexivity. Qed.

Lemma reachable_run (users : gmap string User.t) (cs : list Call) :
  reachable jwt_verify isObjectId isEmail
    (run jwt_verify isObjectId isEmail (mkDb users ∅) cs).
Proof.
  induction cs as [|c cs IH] using rev_ind.
  - apply reach_start.
  - rewrite run_snoc. apply reach_serve, IH.
Qed.

Lemma reachable_inv (db : Db) :
  reachable jwt_verify isObjectId isEmail db -> lifecycle_inv db.
Proof.
  induction 1 as [users | db c _ IH | db users _ IH].
  - split.
    + intros id s H. simpl in H. rewrite lookup_empty in H. discriminate.
    + intros id s H. simpl in H. rewrite lookup_empty in H. discriminate.
  - eapply effect_inv; [exact IH | apply serve_effect].
  - exact IH.
Qed.

Lemma reachable_keyed (db : Db) :
  reachable jwt_verify isObjectId isEmail db -> keyed db.
Proof. intros H. apply reachable_inv in H as [Hk _]. exact Hk. Qed.

End Reachability.

(** ** The status field *)

Lemma serve_gate (jwt_verify : string -> Verified)
    (isObjectId : string -> bool) (isEmail : string -> bool)
    (db : Db) (e : Endpoint) (req : Request) (out : Outside) :
  serve jwt_verify isObjectId isEmail db (mkCall e req out) =
  route (gate jwt_verify isObjectId (endpoint_role e) db)
    (after_gate isObjectId isEmail e out db)
    db req.
Proof. destruct e; reflexivity. Qed.

Ltac open_handlers :=
  unfold after_gate, upload_handler, get_submission_handler,
    save_annotated_handler, generate_report_handler,
    generate_report_stream_handler, admin_get_handler, annotate_handler,
    generate_pdf_handler, upload_single, server_error, not_found, send;
  cbn [route].

(** Either the gate answers, 401 or 403, or the rest of the route runs
    with a user of the endpoint's role attached. *)
Lemma serve_cases (jwt_verify : string -> Verified)
    (isObjectId : string -> bool) (isEmail : string -> bool)
    (db : Db) (e : Endpoint) (req : Request) (out : Outside) :
  (exists res,
      serve jwt_verify isObjectId isEmail db (mkCall e req out) =
        (db, Some res) /\
      (statusCode res = 401 \/ statusCode res = 403 \/
       statusCode res = 500)) \/
  (exists u,
      signed_in jwt_verify isObjectId (Users db) req u /\
      User.role u = endpoint_role e /\
      serve jwt_verify isObjectId isEmail db (mkCall e req out) =
      after_gate isObjectId isEmail e out db (set_user u req)).
Proof. rewrite serve_gate. apply gate_only_cases. Qed.

Lemma change_status (e : Endpoint) (s s' : Submission.t) :
  change e s s' ->
  Submission.status s' = Submission.status s \/
  (Submission.status s' = "annotated" /\
   (e = PatientSaveAnnotated \/ e = AdminAnnotate)) \/
  (Submission.status s' = "reported" /\ is_report e).
Proof.
  intros [-> | [(He & url & ->) | [(He & url & j & ->) | (He & url & ->)]]];
    simpl; auto.
Qed.

Lemma change_reportUrl (e : Endpoint) (s s' : Submission.t) :
  change e s s' ->
  Submission.reportUrl s' = Submission.reportUrl s \/
  (is_report e /\ exists url, s' = Submission.set_reported url s).
Proof.
  intros [-> | [(He & url & ->) | [(He & url & j & ->) | (He & url & ->)]]];
    simpl; eauto.
Qed.

Section StatusWrites.

Variable jwt_verify : string -> Verified.
Variable isObjectId : string -> bool.
Variable isEmail : string -> bool.

(** A 200 from an endpoint that is not a read means that the document
    under the id of the request was saved again, with the status of the
    endpoint. *)
Lemma answered_200 (db : Db) (e : Endpoint) (req : Request) (out : Outside)
    (res : Response) :
  snd (serve jwt_verify isObjectId isEmail db (mkCall e req out)) = Some res ->
  statusCode res = 200 ->
  e = PatientGetSubmission \/ e = AdminGetSubmission \/
  exists s s',
    Submissions db !! params_id req = Some s /\
    fst (serve jwt_verify isObjectId isEmail db (mkCall e req out)) =
      save s' db /\
    Submission._id s' = Submission._id s /\
    (((e = PatientSaveAnnotated \/ e = AdminAnnotate) /\
      Submission.status s' = "annotated") \/
     (is_report e /\ Submission.status s' = "reported")).
Proof.
  destruct (serve_cases jwt_verify isObjectId isEmail db e req out)
    as [(r & -> & Hcode) | (u & _ & _ & ->)].
  - intros [= <-] H200. destruct Hcode as [H | [H | H]];
      rewrite H in H200; discriminate.
  - destruct e; open_handlers; auto;
      repeat case_match; simplify_eq/=; intros [= <-] H200;
      try discriminate; right; right;
      repeat match goal with
      | H : findOne _ _ _ _ = Doc _ |- _ => apply findOne_Doc in H as [H _]
      | H : findById _ _ _ = Doc _ |- _ => apply findById_Doc in H
      end;
      (eexists; eexists; split; [eassumption|]; split; [reflexivity|];
       split; [reflexivity|]); unfold is_report; simpl; auto 10.
Qed.

(** The two annotation endpoints succeed on a stored submission whatever
    its status. *)
Lemma annotation_answered_200 (db : Db) (e : Endpoint) (req : Request)
    (out : Outside) (u : User.t) (s : Submission.t) (url : string) :
  signed_in jwt_verify isObjectId (Users db) req u ->
  Submissions db !! params_id req = Some s ->
  cloudinary out = Some url ->
  (e = PatientSaveAnnotated /\ User.role u = "patient" /\
   Submission.patient s = User._id u /\
   Js.truthy (body req !! "annotatedImageData") = true) \/
  (e = AdminAnnotate /\ User.role u = "admin" /\ annotate_errors req = []) ->
  exists j,
    snd (serve jwt_verify isObjectId isEmail db (mkCall e req out)) =
    Some (mkRes 200 j).
Proof.
  intros Hin Hs Hcloud [(-> & Hr & Hown & Hdata) | (-> & Hr & Hvalid)];
    rewrite serve_gate;
    rewrite (gate_pass jwt_verify isObjectId _ db [] _ req u Hin Hr);
    cbn [route after_gate].
  - unfold save_annotated_handler, findOne, send.
    cbn [body user params_id set_user]. rewrite Hdata, Hs, <- Hown.
    rewrite String.eqb_refl, Hcloud. simpl. eauto.
  - unfold annotate_handler, findById, send.
    change (annotate_errors (set_user u req)) with (annotate_errors req).
    rewrite Hvalid. cbn [params_id set_user]. rewrite Hs, Hcloud.
    simpl. eauto.
Qed.

End StatusWrites.

(** C1, as the code has it.  In every database the server can be in, each
    status is one of the three values of the enum.  A call deletes no
    submission, and the status of a stored submission after the call is the
    one before, or ["annotated"] when the call is save-annotated or
    admin-annotate, or ["reported"] when it is one of the three report
    endpoints; so a status that has left ["uploaded"] never comes back to
    it.  A save-annotated or admin-annotate that is answered 200 leaves
    the submission of the request with the status ["annotated"], a report
    endpoint that is answered 200 with the status ["reported"]; and the
    two annotation endpoints are answered 200 on a stored submission
    whatever its status is. *)
Theorem status_transitions (jwt_verify : string -> Verified)
    (isObjectId : string -> bool)
    (isEmail : string -> bool) (db : Db) (c : Call) :
  reachable jwt_verify isObjectId isEmail db ->
  (forall id s, Submissions db !! id = Some s ->
     Submission.status s ∈ Submission.status_enum) /\
  (forall id s, Submissions db !! id = Some s ->
     exists s',
       Submissions (fst (serve jwt_verify isObjectId isEmail db c)) !! id =
         Some s' /\
       (Submission.status s' = Submission.status s \/
        (Submission.status s' = "annotated" /\
         (endpoint c = PatientSaveAnnotated \/ endpoint c = AdminAnnotate)) \/
        (Submission.status s' = "reported" /\ is_report (endpoint c))) /\
       (Submission.status s' = "uploaded" ->
        Submission.status s = "uploaded")) /\
  (forall res,
     snd (serve jwt_verify isObjectId isEmail db c) = Some res ->
     statusCode res = 200 ->
     (endpoint c = PatientSaveAnnotated \/ endpoint c = AdminAnnotate ->
      exists s',
        Submissions (fst (serve jwt_verify isObjectId isEmail db c))
          !! params_id (request c) = Some s' /\
        Submission.status s' = "annotated") /\
     (is_report (endpoint c) ->
      exists s',
        Submissions (fst (serve jwt_verify isObjectId isEmail db c))
          !! params_id (request c) = Some s' /\
        Submission.status s' = "reported")) /\
  (forall u s url,
     signed_in jwt_verify isObjectId (Users db) (request c) u ->
     Submissions db !! params_id (request c) = Some s ->
     cloudinary (outside c) = Some url ->
     (endpoint c = PatientSaveAnnotated /\ User.role u = "patient" /\
      Submission.patient s = User._id u /\
      Js.truthy (body (request c) !! "annotatedImageData") = true) \/
     (endpoint c = AdminAnnotate /\ User.role u = "admin" /\
      annotate_errors (request c) = []) ->
     exists j,
       snd (serve jwt_verify isObjectId isEmail db c) = Some (mkRes 200 j)).
Proof.
  intros Hreach.
  destruct (reachable_inv _ _ _ _ Hreach) as [Hk Hinv].
  split; [|split; [|split]].
  - intros id s Hs. apply (Hinv id s Hs).
  - intros id s Hs.
    destruct (effect_lookup _ _ _ id s Hk
                (serve_effect jwt_verify isObjectId isEmail db c) Hs)
      as (s' & Hs' & Hc).
    exists s'. split; [exact Hs'|].
    apply change_status in Hc. split; [exact Hc|].
    intros Hup. destruct Hc as [<- | [[Ha _] | [Hr _]]].
    + exact Hup.
    + rewrite Hup in Ha. discriminate.
    + rewrite Hup in Hr. discriminate.
  - destruct c as [e req out]. cbn [endpoint request outside].
    intros res Hres H200.
    destruct (answered_200 jwt_verify isObjectId isEmail db e req out res
                Hres H200)
      as [-> | [-> | (s & s' & Hs & -> & Hid & Hst)]].
    + split; [intros [[=] | [=]] | intros [[=] | [[=] | [=]]]].
    + split; [intros [[=] | [=]] | intros [[=] | [[=] | [=]]]].
    + assert (Submissions (save s' db) !! params_id req = Some s') as Hs'
        by (apply save_lookup_own with (s := s); assumption).
      split.
      * intros He. exists s'. split; [exact Hs'|].
        destruct Hst as [[_ Ha] | [Hrep _]]; [exact Ha|].
        destruct He as [-> | ->], Hrep as [[=] | [[=] | [=]]].
      * intros He. exists s'. split; [exact Hs'|].
        destruct Hst as [[Ha _] | [_ Hr]]; [|exact Hr].
        destruct Ha as [-> | ->], He as [[=] | [[=] | [=]]].
  - destruct c as [e req out]. cbn [endpoint request outside].
    intros u s url. apply annotation_answered_200.
Qed.

Lemma status_transitions_witness :
  reachable Demo.jwt_verify Demo.isObjectId Demo.isEmail Demo.db_reported /\
  exists s',
    Submissions
      (fst (serve Demo.jwt_verify Demo.isObjectId Demo.isEmail
              Demo.db_reported Demo.call_save_annotated))
      !! params_id (request Demo.call_save_annotated) = Some s' /\
    Submission.status s' = "annotated".
Proof.
  assert (reachable Demo.jwt_verify Demo.isObjectId Demo.isEmail
            Demo.db_reported) as H
    by apply (reachable_run Demo.jwt_verify Demo.isObjectId Demo.isEmail
                Demo.users [Demo.call_upload; Demo.call_report]).
  split; [exact H|].
  apply (proj1 (proj1 (proj2 (proj2
           (status_transitions Demo.jwt_verify Demo.isObjectId Demo.isEmail
              Demo.db_reported Demo.call_save_annotated H)))
           (mkRes 200
              (JMessageUrl "Annotated image saved successfully"
                 "annotatedImageUrl" "https://cdn/s1-annotated.png"))
           ltac:(vm_compute; reflexivity) eq_refl)).
  left. reflexivity.
Defined.

(** C1, as the claim has it, fails: alice uploads, generates the report
    (status ["reported"]), then saves an annotated image, which is
    answered 200 and puts the status back to ["annotated"]. *)
Lemma status_regresses :
  reachable Demo.jwt_verify Demo.isObjectId Demo.isEmail Demo.db_reported /\
  Demo.status_of Demo.db_reported Demo.sid = Some "reported" /\
  snd (serve Demo.jwt_verify Demo.isObjectId Demo.isEmail Demo.db_reported
         Demo.call_save_annotated) =
    Some (mkRes 200
            (JMessageUrl "Annotated image saved successfully"
               "annotatedImageUrl" "https://cdn/s1-annotated.png")) /\
  Demo.status_of
    (fst (serve Demo.jwt_verify Demo.isObjectId Demo.isEmail Demo.db_reported
            Demo.call_save_annotated)) Demo.sid = Some "annotated" /\
  rank "annotated" < rank "reported".
Proof.
  split; [|split; [|split; [|split]]].
  - apply (reachable_run Demo.jwt_verify Demo.isObjectId Demo.isEmail Demo.users
      [Demo.call_upload; Demo.call_report]).
  - vm_compute. reflexivity.
  - vm_compute. reflexivity.
  - vm_compute. reflexivity.
  - vm_compute. lia.
Qed.

(** ** The report reference *)

(** C2, as the code has it.  In every database the server can be in, a
    submission whose status is ["reported"] has a report reference.  A
    call leaves the report reference of a stored submission as it was,
    unless it is a report endpoint writing the reference and the status
    ["reported"] in one update; a status ["reported"] after the call was
    there before or comes from such an update; and a reference that is set
    stays set. *)
Theorem reportUrl_of_reported (jwt_verify : string -> Verified)
    (isObjectId : string -> bool)
    (isEmail : string -> bool) (db : Db) (c : Call) :
  reachable jwt_verify isObjectId isEmail db ->
  (forall id s, Submissions db !! id = Some s ->
     Submission.status s = "reported" -> is_Some (Submission.reportUrl s)) /\
  (forall id s s',
     Submissions db !! id = Some s ->
     Submissions (fst (serve jwt_verify isObjectId isEmail db c)) !!
       id = Some s' ->
     (Submission.reportUrl s' = Submission.reportUrl s \/
      (is_report (endpoint c) /\
       exists url, s' = Submission.set_reported url s)) /\
     (Submission.status s' = "reported" ->
      Submission.status s = "reported" \/
      (is_report (endpoint c) /\
       exists url, s' = Submission.set_reported url s)) /\
     (is_Some (Submission.reportUrl s) ->
      is_Some (Submission.reportUrl s'))).
Proof.
  intros Hreach.
  destruct (reachable_inv _ _ _ _ Hreach) as [Hk Hinv]. split.
  - intros id s Hs. apply (Hinv id s Hs).
  - intros id s s' Hs Hs'.
    destruct (effect_lookup _ _ _ id s Hk
      (serve_effect jwt_verify isObjectId isEmail db c) Hs)
      as (s1 & Hs1 & Hc).
    rewrite Hs' in Hs1. injection Hs1 as <-.
    split; [apply change_reportUrl, Hc|]. split.
    + intros Hst.
      destruct Hc as [-> | [(He & url & ->) | [(He & url & j & ->)
                     | (He & url & ->)]]]; simpl in *; eauto; discriminate.
    + intros Hset. destruct (change_reportUrl _ _ _ Hc) as
      [-> | (_ & url & ->)].
      * exact Hset.
      * simpl. eauto.
Qed.

Lemma reportUrl_of_reported_witness :
  reachable Demo.jwt_verify Demo.isObjectId Demo.isEmail Demo.db_reported /\
  Submissions Demo.db_reported !! Demo.sid = Some Demo.s1_reported /\
  Submission.status Demo.s1_reported = "reported" /\
  is_Some (Submission.reportUrl Demo.s1_reported) /\
  (forall s',
     Submissions
       (fst (serve Demo.jwt_verify Demo.isObjectId Demo.isEmail
               Demo.db_reported Demo.call_save_annotated))
       !! Demo.sid = Some s' ->
     is_Some (Submission.reportUrl s')).
Proof.
  assert (reachable Demo.jwt_verify Demo.isObjectId Demo.isEmail
            Demo.db_reported) as H
    by apply (reachable_run Demo.jwt_verify Demo.isObjectId Demo.isEmail
                Demo.users [Demo.call_upload; Demo.call_report]).
  assert (Submissions Demo.db_reported !! Demo.sid = Some Demo.s1_reported)
    as Hs by (vm_compute; reflexivity).
  pose proof (reportUrl_of_reported Demo.jwt_verify Demo.isObjectId
                Demo.isEmail Demo.db_reported Demo.call_save_annotated H)
    as [Hset Hcall].
  pose proof (Hset Demo.sid Demo.s1_reported Hs eq_refl) as Hurl.
  split; [exact H|]. split; [exact Hs|]. split; [reflexivity|].
  split; [exact Hurl|].
  intros s' Hs'.
  exact (proj2 (proj2 (Hcall Demo.sid Demo.s1_reported s' Hs Hs')) Hurl).
Defined.

(** C2, as the claim has it, fails from right to left: after upload,
    report and a further save-annotated, the submission has a report
    reference and the status ["annotated"]. *)
Lemma reportUrl_without_reported :
  reachable Demo.jwt_verify Demo.isObjectId Demo.isEmail Demo.db_reannotated /\
  (Submission.reportUrl <$> Submissions Demo.db_reannotated !! Demo.sid) =
    Some (Some "https://cdn/s1-report.pdf") /\
  Demo.status_of Demo.db_reannotated Demo.sid = Some "annotated".
Proof.
  split; [|split].
  - apply (reachable_run Demo.jwt_verify Demo.isObjectId Demo.isEmail Demo.users
      [Demo.call_upload; Demo.call_report; Demo.call_save_annotated]).
  - vm_compute. reflexivity.
  - vm_compute. reflexivity.
Qed.

(** ** Report generation *)

Section Reports.

Variable jwt_verify : string -> Verified.
Variable isObjectId : string -> bool.
Variable isEmail : string -> bool.

Lemma gate_only_pass (r : string) (db : Db) (h : Request -> Result)
    (req : Request) (u : User.t) :
  signed_in jwt_verify isObjectId (Users db) req u -> User.role u = r ->
  route (gate jwt_verify isObjectId r db) h db req = h (set_user u req).
Proof. intros Hin Hr. exact
  (gate_pass jwt_verify isObjectId r db [] h req u Hin Hr). Qed.

Lemma findOne_own (db : Db) (id : string) (s : Submission.t) :
  Submissions db !! id = Some s ->
  findOne isObjectId db id (Submission.patient s) = Doc s.
Proof. intros Hs. apply findOne_Doc. auto. Qed.

(** The patient endpoint, first variant, on a submission of the
    requester: the answer of the artifact store decides alone. *)
Lemma generate_report_owned (out : Outside) (db : Db) (req : Request)
    (u : User.t) (s : Submission.t) :
  signed_in jwt_verify isObjectId (Users db) req u -> User.role u = "patient" ->
  Submissions db !! params_id req = Some s ->
  Submission.patient s = User._id u ->
  generate_report jwt_verify isObjectId out db req =
  match cloudinary out with
  | None => (db, None)
  | Some url =>
      (save (Submission.set_reported url s) db,
       Some (mkRes 200
               (JMessageUrl "Report generated successfully" "reportUrl" url)))
  end.
Proof.
  intros Hin Hr Hs Hown. unfold generate_report.
  rewrite (gate_only_pass _ _ _ _ u Hin Hr).
  unfold generate_report_handler. simpl.
  rewrite <- Hown, (findOne_own _ _ _ Hs). reflexivity.
Qed.

(** The same endpoint, [upload_stream] variant. *)
Lemma generate_report_stream_owned (out : Outside) (db : Db) (req : Request)
    (u : User.t) (s : Submission.t) :
  signed_in jwt_verify isObjectId (Users db) req u -> User.role u = "patient" ->
  Submissions db !! params_id req = Some s ->
  Submission.patient s = User._id u ->
  generate_report_stream jwt_verify isObjectId out db req =
  match cloudinary out with
  | None => (db, Some (mkRes 500 (JMessage "Failed to upload PDF")))
  | Some url =>
      (save (Submission.set_reported url s) db,
       Some (mkRes 200
               (JMessageUrl "Report generated successfully" "reportUrl" url)))
  end.
Proof.
  intros Hin Hr Hs Hown. unfold generate_report_stream.
  rewrite (gate_only_pass _ _ _ _ u Hin Hr).
  unfold generate_report_stream_handler. simpl.
  rewrite <- Hown, (findOne_own _ _ _ Hs). reflexivity.
Qed.

(** The admin endpoint on a stored submission. *)
Lemma generate_pdf_found (out : Outside) (db : Db) (req : Request)
    (u : User.t) (s : Submission.t) :
  signed_in jwt_verify isObjectId (Users db) req u -> User.role u = "admin" ->
  Submissions db !! params_id req = Some s ->
  generate_pdf jwt_verify isObjectId out db req =
  if negb (Js.truthy (Submission.annotatedImageUrl s)) then
    (db, Some (mkRes 400
                 (JMessage "Annotated image is required to generate PDF")))
  else if negb (axios out) then
    (db, Some (mkRes 500 (JMessage "Server error")))
  else
    match cloudinary out with
    | None => (db, Some (mkRes 500 (JMessage "Failed to upload PDF")))
    | Some url =>
        (save (Submission.set_reported url s) db,
         Some (mkRes 200
                 (JMessageUrl "PDF generated successfully" "reportUrl" url)))
    end.
Proof.
  intros Hin Hr Hs. unfold generate_pdf.
  rewrite (gate_only_pass _ _ _ _ u Hin Hr).
  unfold generate_pdf_handler, findById. simpl. rewrite Hs. reflexivity.
Qed.

End Reports.

(** C3, as the code has it.  Neither variant looks at [status].  For a
    stored submission and an artifact store that accepts the report: the
    two patient variants succeed whenever the requester owns the
    submission, with no other guard; the admin variant answers 400 when
    [annotatedImageUrl] is not set (falsy) and succeeds when it is set and
    the image could be fetched.  Success writes [reportUrl] and the status
    ["reported"] to the submission. *)
Theorem report_generation (jwt_verify : string -> Verified)
    (isObjectId : string -> bool)
    (isEmail : string -> bool) (db : Db) (req : Request) (out : Outside)
    (u : User.t) (s : Submission.t) (url : string) :
  reachable jwt_verify isObjectId isEmail db ->
  signed_in jwt_verify isObjectId (Users db) req u ->
  Submissions db !! params_id req = Some s ->
  cloudinary out = Some url ->
  let db' := save (Submission.set_reported url s) db in
  (User.role u = "patient" -> Submission.patient s = User._id u ->
   generate_report jwt_verify isObjectId out db req =
     (db', Some (mkRes 200
                   (JMessageUrl "Report generated successfully" "reportUrl"
                      url))) /\
   generate_report_stream jwt_verify isObjectId out db req =
     (db', Some (mkRes 200
                   (JMessageUrl "Report generated successfully" "reportUrl"
                      url)))) /\
  (User.role u = "admin" ->
   (Js.truthy (Submission.annotatedImageUrl s) = false ->
    generate_pdf jwt_verify isObjectId out db req =
      (db, Some (mkRes 400
                   (JMessage "Annotated image is required to generate PDF")))) /\
   (Js.truthy (Submission.annotatedImageUrl s) = true -> axios out = true ->
    generate_pdf jwt_verify isObjectId out db req =
      (db', Some (mkRes 200
                    (JMessageUrl "PDF generated successfully" "reportUrl"
                       url))))) /\
  (exists s', Submissions db' !! params_id req = Some s' /\
              Submission.status s' = "reported" /\
              Submission.reportUrl s' = Some url).
Proof.
  intros Hreach Hin Hs Hcloud db'. split; [|split].
  - intros Hr Hown. split.
    + rewrite (generate_report_owned jwt_verify isObjectId out db req u s Hin
      Hr Hs Hown).
      rewrite Hcloud. reflexivity.
    + rewrite (generate_report_stream_owned jwt_verify isObjectId out db req u s
                 Hin Hr Hs Hown).
      rewrite Hcloud. reflexivity.
  - intros Hr.
    rewrite (generate_pdf_found jwt_verify isObjectId out db req u s Hin Hr Hs).
    split.
    + intros ->. reflexivity.
    + intros -> ->. simpl. rewrite Hcloud. reflexivity.
  - exists (Submission.set_reported url s). split; [|split; reflexivity].
    apply save_lookup_own with (s := s); [|exact Hs|reflexivity].
    eapply reachable_keyed, Hreach.
Qed.

Lemma report_generation_witness :
  reachable Demo.jwt_verify Demo.isObjectId Demo.isEmail Demo.db_uploaded /\
  signed_in Demo.jwt_verify Demo.isObjectId (Users Demo.db_uploaded)
    (request Demo.call_report) Demo.alice /\
  Submissions Demo.db_uploaded !! params_id (request Demo.call_report) =
    Some Demo.s1 /\
  Submission.status Demo.s1 = "uploaded" /\
  generate_report Demo.jwt_verify Demo.isObjectId (outside Demo.call_report)
    Demo.db_uploaded
    (request Demo.call_report) =
  (save (Submission.set_reported "https://cdn/s1-report.pdf" Demo.s1)
     Demo.db_uploaded,
   Some (mkRes 200
           (JMessageUrl "Report generated successfully" "reportUrl"
              "https://cdn/s1-report.pdf"))).
Proof.
  assert (reachable Demo.jwt_verify Demo.isObjectId Demo.isEmail
    Demo.db_uploaded) as H1
    by apply (reachable_run Demo.jwt_verify Demo.isObjectId
      Demo.isEmail Demo.users
                 [Demo.call_upload]).
  assert (signed_in Demo.jwt_verify Demo.isObjectId (Users Demo.db_uploaded)
            (request Demo.call_report) Demo.alice) as H2
    by (vm_compute; reflexivity).
  assert (Submissions Demo.db_uploaded !! params_id (request Demo.call_report)
          = Some Demo.s1) as H3 by (vm_compute; reflexivity).
  assert (cloudinary (outside Demo.call_report)
          = Some "https://cdn/s1-report.pdf") as H4 by reflexivity.
  split; [exact H1|]. split; [exact H2|]. split; [exact H3|].
  split; [reflexivity|].
  apply (proj1 (proj1 (report_generation Demo.jwt_verify Demo.isObjectId
    Demo.isEmail
                         Demo.db_uploaded (request Demo.call_report)
                         (outside Demo.call_report) Demo.alice Demo.s1
                         "https://cdn/s1-report.pdf" H1 H2 H3 H4)
                  eq_refl eq_refl)).
Defined.

(** C3, as the claim has it, fails: the patient variant is answered 200 on
    a submission whose status is ["uploaded"], and the admin variant on one
    whose status is already ["reported"]. *)
Lemma report_outside_annotated :
  (Demo.status_of Demo.db_uploaded Demo.sid = Some "uploaded" /\
   snd (serve Demo.jwt_verify Demo.isObjectId Demo.isEmail Demo.db_uploaded
     Demo.call_report) =
     Some (mkRes 200
             (JMessageUrl "Report generated successfully" "reportUrl"
                "https://cdn/s1-report.pdf")) /\
   Demo.status_of
     (fst (serve Demo.jwt_verify Demo.isObjectId Demo.isEmail Demo.db_uploaded
             Demo.call_report)) Demo.sid = Some "reported") /\
  (Demo.status_of Demo.db_annotated_reported Demo.sid = Some "reported" /\
   snd (serve Demo.jwt_verify Demo.isObjectId Demo.isEmail
     Demo.db_annotated_reported
          Demo.call_pdf) =
     Some (mkRes 200
             (JMessageUrl "PDF generated successfully" "reportUrl"
                "https://cdn/report-s1.pdf"))).
Proof. repeat split; vm_compute; reflexivity. Qed.

(** C4. An admin asks for the PDF of a stored submission whose
    [annotatedImageUrl] is null: the answer is 400 and the database is the
    one before the call. *)
Theorem generate_pdf_without_annotated_image (jwt_verify : string -> Verified)
    (isObjectId : string -> bool)
    (db : Db) (req : Request) (out : Outside) (u : User.t)
    (s : Submission.t) :
  signed_in jwt_verify isObjectId (Users db) req u -> User.role u = "admin" ->
  Submissions db !! params_id req = Some s ->
  Submission.annotatedImageUrl s = None ->
  generate_pdf jwt_verify isObjectId out db req =
  (db, Some (mkRes 400
               (JMessage "Annotated image is required to generate PDF"))).
Proof.
  intros Hin Hr Hs Hnull.
  rewrite (generate_pdf_found jwt_verify isObjectId out db req u s Hin
    Hr Hs), Hnull.
  reflexivity.
Qed.

Lemma generate_pdf_without_annotated_image_witness :
  generate_pdf Demo.jwt_verify Demo.isObjectId (outside Demo.call_pdf)
    Demo.db_uploaded
    (request Demo.call_pdf) =
  (Demo.db_uploaded,
   Some (mkRes 400 (JMessage "Annotated image is required to generate PDF"))).
Proof.
  apply (generate_pdf_without_annotated_image Demo.jwt_verify Demo.isObjectId
    Demo.db_uploaded
           (request Demo.call_pdf) (outside Demo.call_pdf) Demo.root Demo.s1).
  - vm_compute. reflexivity.
  - reflexivity.
  - vm_compute. reflexivity.
  - reflexivity.
Defined.

(** ** Ownership *)

(** C5, as the code has it.  A patient asks for a stored submission that
    belongs to someone else: get-by-id and both variants of
    generate-report answer 404; save-annotated answers 404 when the
    request carries an annotated image and 400 when it does not (the
    payload is tested before the submission is looked up).  In every case
    the database is the one before the call. *)
Theorem patient_ownership (jwt_verify : string -> Verified)
    (isObjectId : string -> bool) (db : Db)
    (req : Request) (out : Outside) (u : User.t) (s : Submission.t) :
  signed_in jwt_verify isObjectId (Users db) req u -> User.role u = "patient" ->
  Submissions db !! params_id req = Some s ->
  Submission.patient s <> User._id u ->
  get_submission jwt_verify isObjectId db req =
    (db, Some (mkRes 404 (JMessage "Submission not found"))) /\
  generate_report jwt_verify isObjectId out db req =
    (db, Some (mkRes 404 (JMessage "Submission not found"))) /\
  generate_report_stream jwt_verify isObjectId out db req =
    (db, Some (mkRes 404 (JMessage "Submission not found"))) /\
  save_annotated jwt_verify isObjectId out db req =
    (db, Some (if Js.truthy (body req !! "annotatedImageData")
               then mkRes 404 (JMessage "Submission not found")
               else mkRes 400 (JMessage "Annotated image data is required"))).
Proof.
  intros Hin Hr Hs Hne.
  pose proof (findOne_other isObjectId db _ _ s Hs Hne) as Hnone.
  unfold get_submission, generate_report, generate_report_stream,
    save_annotated.
  rewrite !(gate_only_pass jwt_verify isObjectId _ _ _ _ u Hin Hr).
  unfold get_submission_handler, generate_report_handler,
    generate_report_stream_handler, save_annotated_handler.
  simpl. rewrite Hnone.
  repeat split. destruct (Js.truthy (body req !! "annotatedImageData"));
    reflexivity.
Qed.

Lemma patient_ownership_witness :
  get_submission Demo.jwt_verify Demo.isObjectId Demo.db_uploaded
    (request Demo.call_bob_save_nothing) =
  (Demo.db_uploaded, Some (mkRes 404 (JMessage "Submission not found"))).
Proof.
  apply (patient_ownership Demo.jwt_verify Demo.isObjectId Demo.db_uploaded
           (request Demo.call_bob_save_nothing)
           (outside Demo.call_bob_save_nothing) Demo.bob Demo.s1).
  - vm_compute. reflexivity.
  - reflexivity.
  - vm_compute. reflexivity.
  - vm_compute. discriminate.
Defined.

(** C5, as the claim has it, fails: bob, a patient, posts to
    save-annotated for alice's submission with no annotated image in the
    body; the answer is 400, not 404. *)
Lemma foreign_save_without_payload :
  Submissions Demo.db_uploaded !! Demo.sid = Some Demo.s1 /\
  Submission.patient Demo.s1 <> User._id Demo.bob /\
  signed_in Demo.jwt_verify Demo.isObjectId (Users Demo.db_uploaded)
    (request Demo.call_bob_save_nothing) Demo.bob /\
  User.role Demo.bob = "patient" /\
  serve Demo.jwt_verify Demo.isObjectId Demo.isEmail Demo.db_uploaded
    Demo.call_bob_save_nothing =
  (Demo.db_uploaded,
   Some (mkRes 400 (JMessage "Annotated image data is required"))).
Proof.
  repeat split; try (vm_compute; reflexivity).
  vm_compute. discriminate.
Qed.

(** ** Failure of the artifact store *)

Section StoreFailure.

Variable jwt_verify : string -> Verified.
Variable isObjectId : string -> bool.

(** The two handlers that receive the outcome of the upload in a callback
    answer 500 and leave the database alone when the upload fails. *)
Lemma generate_pdf_store_failure (out : Outside) (db : Db) (req : Request) :
  cloudinary out = None ->
  fst (generate_pdf jwt_verify isObjectId out db req) = db /\
  forall res, snd (generate_pdf jwt_verify isObjectId out db req) = Some res ->
              statusCode res <> 200.
Proof.
  intros Hdown. unfold generate_pdf.
  destruct (gate_only_cases jwt_verify isObjectId "admin" db
              (generate_pdf_handler isObjectId out db) req)
    as [(res & -> & Hcode) | (u & _ & _ & ->)].
  - split; [reflexivity|]. intros res' [= <-].
    destruct Hcode as [-> | [-> | ->]]; discriminate.
  - unfold generate_pdf_handler, not_found, server_error, send.
    rewrite Hdown. repeat case_match; simpl; split; try reflexivity;
      intros res' [= <-]; discriminate.
Qed.

Lemma generate_pdf_store_failure_500 (out : Outside) (db : Db)
    (req : Request) (u : User.t) (s : Submission.t) :
  signed_in jwt_verify isObjectId (Users db) req u -> User.role u = "admin" ->
  Submissions db !! params_id req = Some s ->
  Js.truthy (Submission.annotatedImageUrl s) = true -> axios out = true ->
  cloudinary out = None ->
  generate_pdf jwt_verify isObjectId out db req =
  (db, Some (mkRes 500 (JMessage "Failed to upload PDF"))).
Proof.
  intros Hin Hr Hs Ha Hx Hdown.
  rewrite (generate_pdf_found jwt_verify isObjectId out db req u s Hin Hr Hs).
  rewrite Ha, Hx, Hdown. reflexivity.
Qed.

Lemma generate_report_stream_store_failure_500 (out : Outside) (db : Db)
    (req : Request) (u : User.t) (s : Submission.t) :
  signed_in jwt_verify isObjectId (Users db) req u -> User.role u = "patient" ->
  Submissions db !! params_id req = Some s ->
  Submission.patient s = User._id u ->
  cloudinary out = None ->
  generate_report_stream jwt_verify isObjectId out db req =
  (db, Some (mkRes 500 (JMessage "Failed to upload PDF"))).
Proof.
  intros Hin Hr Hs Hown Hdown.
  rewrite (generate_report_stream_owned jwt_verify isObjectId out db req u s
             Hin Hr Hs Hown).
  rewrite Hdown. reflexivity.
Qed.

(** The first variant of the patient endpoint leaves the database alone
    too, but writes no response at all. *)
Lemma generate_report_store_failure_silent (out : Outside) (db : Db)
    (req : Request) (u : User.t) (s : Submission.t) :
  signed_in jwt_verify isObjectId (Users db) req u -> User.role u = "patient" ->
  Submissions db !! params_id req = Some s ->
  Submission.patient s = User._id u ->
  cloudinary out = None ->
  generate_report jwt_verify isObjectId out db req = (db, None).
Proof.
  intros Hin Hr Hs Hown Hdown.
  rewrite (generate_report_owned jwt_verify isObjectId out db req u s Hin
    Hr Hs Hown).
  rewrite Hdown. reflexivity.
Qed.

End StoreFailure.

(** C6 at the failing input.  alice asks for the report of her annotated
    submission while the artifact store is down: [POST /generate-report/:id]
    of lines 157-213 leaves the database as it was and writes no response,
    where the claim wants an error sent to the caller. *)
Theorem generate_report_store_down_unanswered :
  Demo.status_of Demo.db_annotated Demo.sid = Some "annotated" /\
  cloudinary (outside Demo.call_report_store_down) = None /\
  serve Demo.jwt_verify Demo.isObjectId Demo.isEmail Demo.db_annotated
    Demo.call_report_store_down = (Demo.db_annotated, None).
Proof. repeat split; vm_compute; reflexivity. Qed.

(** ** Upload, then read *)

Section RoundTrip.

Variable jwt_verify : string -> Verified.
Variable isObjectId : string -> bool.
Variable isEmail : string -> bool.

(** A well-formed upload by a patient stores exactly the document built
    from the form and answers 201. *)
Lemma upload_created (out : Outside) (db : Db) (req : Request) (u : User.t)
    (f : File) (name patientId email url : string) :
  signed_in jwt_verify isObjectId (Users db) req u -> User.role u = "patient" ->
  body req !! "name" = Some name -> name <> "" ->
  body req !! "patientId" = Some patientId -> patientId <> "" ->
  body req !! "email" = Some email -> isEmail email = true ->
  email <> "" ->
  file req = Some f -> Js.startsWith (mimetype f) "image/" = true ->
  (size f <= 5 * 1024 * 1024)%N ->
  cloudinary out = Some url -> url <> "" ->
  Submissions db !! objectId out = None ->
  let s := Submission.new (objectId out) (User._id u) name patientId email
             (body req !! "note") url in
  upload jwt_verify isObjectId isEmail out db req =
  (save s db,
   Some (mkRes 201 (JMessageSubmission "Submission uploaded successfully" s))).
Proof.
  intros Hin Hr Hname Hn Hpid Hp Hemail He Hne Hfile Hmime Hsize Hcloud Hurl
    Hfresh s.
  unfold upload.
  rewrite (gate_pass jwt_verify isObjectId "patient" db [upload_single] _
    req u Hin Hr).
  cbn [route]. unfold upload_single.
  cbn [file set_user]. rewrite Hfile, Hmime. cbn [negb].
  apply N.ltb_ge in Hsize. rewrite Hsize.
  unfold upload_handler, upload_errors.
  cbn [body file user set_user].
  rewrite Hname, Hpid, Hemail. cbn [default from_option id].
  assert (Js.truthy (Some name) = true) as -> by (apply truthy_true; eauto).
  assert (Js.truthy (Some patientId) = true) as ->
    by (apply truthy_true; eauto).
  rewrite He. cbn [app]. rewrite Hfile, Hcloud.
  rewrite (validate_new _ _ _ _ _ _ _ Hn Hp Hne Hurl). cbn [negb].
  rewrite Hfresh. reflexivity.
Qed.

(** The owner reads back what was saved under [_id]. *)
Lemma get_own_saved (db : Db) (req : Request) (u : User.t)
    (s : Submission.t) :
  signed_in jwt_verify isObjectId (Users db) req u -> User.role u = "patient" ->
  params_id req = Submission._id s ->
  Submission.patient s = User._id u ->
  get_submission jwt_verify isObjectId (save s db) req =
  (save s db, Some (mkRes 200 (JSubmission s))).
Proof.
  intros Hin Hr Hid Hown. unfold get_submission.
  rewrite (gate_only_pass jwt_verify isObjectId "patient" (save s db) _
    req u Hin Hr).
  unfold get_submission_handler. cbn [user set_user params_id].
  rewrite Hid, <- Hown.
  rewrite (findOne_own isObjectId (save s db) (Submission._id s) s);
    [reflexivity|].
  rewrite save_lookup. case_decide; [reflexivity | contradiction].
Qed.

End RoundTrip.

(** C9. A patient uploads name "Jane Doe", patientId "P-100", email
    "jane@x.com", note "" with an image, which the artifact store accepts
    under a reference that is not empty; the upload is answered 201, and
    when the same patient then gets the submission by its id the answer is
    200 with the same name, patientId, email and note and the status
    ["uploaded"]. *)
Theorem upload_round_trip (jwt_verify : string -> Verified)
    (isObjectId : string -> bool)
    (isEmail : string -> bool) (db : Db) (req req' : Request)
    (out : Outside) (u : User.t) (f : File) (url : string) :
  signed_in jwt_verify isObjectId (Users db) req u -> User.role u = "patient" ->
  body req !! "name" = Some "Jane Doe" ->
  body req !! "patientId" = Some "P-100" ->
  body req !! "email" = Some "jane@x.com" ->
  body req !! "note" = Some "" ->
  isEmail "jane@x.com" = true ->
  file req = Some f -> Js.startsWith (mimetype f) "image/" = true ->
  (size f <= 5 * 1024 * 1024)%N ->
  cloudinary out = Some url -> url <> "" ->
  Submissions db !! objectId out = None ->
  signed_in jwt_verify isObjectId (Users db) req' u ->
  params_id req' = objectId out ->
  exists s db',
    upload jwt_verify isObjectId isEmail out db req =
      (db', Some (mkRes 201
                    (JMessageSubmission "Submission uploaded successfully" s)))
    /\
    get_submission jwt_verify isObjectId db' req' =
      (db', Some (mkRes 200 (JSubmission s)))
    /\
    Submission._id s = objectId out /\
    Submission.name s = "Jane Doe" /\
    Submission.patientId s = "P-100" /\
    Submission.email s = "jane@x.com" /\
    Submission.note s = Some "" /\
    Submission.status s = "uploaded".
Proof.
  intros Hin Hr Hname Hpid Hemail Hnote He Hfile Hmime Hsize Hcloud Hurl
    Hfresh Hin' Hid.
  eexists. eexists. split; [|split].
  - apply (upload_created jwt_verify isObjectId isEmail out db req u f
             "Jane Doe" "P-100" "jane@x.com" url); try assumption;
      discriminate.
  - apply get_own_saved with (u := u); try assumption. reflexivity.
  - simpl. rewrite Hnote. repeat split.
Qed.

Lemma upload_round_trip_witness :
  exists s db',
    upload Demo.jwt_verify Demo.isObjectId Demo.isEmail
      (outside Demo.call_upload) Demo.db0
      (request Demo.call_upload) =
      (db', Some (mkRes 201
                    (JMessageSubmission "Submission uploaded successfully" s)))
    /\
    get_submission Demo.jwt_verify Demo.isObjectId db' (request Demo.call_get) =
      (db', Some (mkRes 200 (JSubmission s))) /\
    Submission._id s = objectId (outside Demo.call_upload) /\
    Submission.name s = "Jane Doe" /\
    Submission.patientId s = "P-100" /\
    Submission.email s = "jane@x.com" /\
    Submission.note s = Some "" /\
    Submission.status s = "uploaded".
Proof.
  apply (upload_round_trip Demo.jwt_verify Demo.isObjectId Demo.isEmail Demo.db0
           (request Demo.call_upload) (request Demo.call_get)
           (outside Demo.call_upload) Demo.alice Demo.png
           "https://cdn/s1.png").
  - vm_compute. reflexivity.
  - reflexivity.
  - vm_compute. reflexivity.
  - vm_compute. reflexivity.
  - vm_compute. reflexivity.
  - vm_compute. reflexivity.
  - vm_compute. reflexivity.
  - reflexivity.
  - vm_compute. reflexivity.
  - vm_compute. discriminate.
  - reflexivity.
  - discriminate.
  - vm_compute. reflexivity.
  - vm_compute. reflexivity.
  - reflexivity.
Defined.

(** ** Further examples on the concrete deployment *)

Example split_bearer : Js.split " " "Bearer abc def" = ["Bearer"; "abc"; "def"].
Proof. reflexivity. Qed.

Example split_empty : Js.split " " "" = [""].
Proof. reflexivity. Qed.

Example token_from_header :
  token_of (Demo.with_header "Bearer tok-alice" Demo.sid) = Some "tok-alice".
Proof. vm_compute. reflexivity. Qed.

Example token_not_bearer :
  authenticateToken Demo.jwt_verify Demo.isObjectId Demo.users
    (Demo.with_header "Basic tok-alice" Demo.sid) =
  Respond (mkRes 401 (JMessage "Access denied. No token provided.")).
Proof. vm_compute. reflexivity. Qed.

Example cookie_before_header :
  token_of
    (mkReq (Some {["token" := "tok-alice"]})
       {["authorization" := "Bearer tok-bob"]} Demo.sid ∅ None None) =
  Some "tok-alice".
Proof. vm_compute. reflexivity. Qed.

Example expired_like_invalid :
  authenticateToken Demo.jwt_verify Demo.isObjectId Demo.users
    (Demo.with_cookie "tok-old" Demo.sid ∅ None) =
  authenticateToken Demo.jwt_verify Demo.isObjectId Demo.users
    (Demo.with_cookie "tok-forged" Demo.sid ∅ None).
Proof. vm_compute. reflexivity. Qed.

Example deleted_user :
  authenticateToken Demo.jwt_verify Demo.isObjectId Demo.users
    (Demo.with_cookie "tok-gone" Demo.sid ∅ None) =
  Respond (mkRes 401 (JMessage "User not found. Invalid token.")).
Proof. vm_compute. reflexivity. Qed.

(** An admin annotation after the report puts the status back as well. *)
Example admin_annotate_after_report :
  Demo.status_of
    (fst (serve Demo.jwt_verify Demo.isObjectId Demo.isEmail Demo.db_reported
            Demo.call_annotate)) Demo.sid = Some "annotated".
Proof. vm_compute. reflexivity. Qed.

(** A patient token on an admin route stops at the role gate. *)
Example patient_on_admin_route :
  serve Demo.jwt_verify Demo.isObjectId Demo.isEmail Demo.db_uploaded
    (mkCall AdminGeneratePdf (request Demo.call_report) (Demo.ok "")) =
  (Demo.db_uploaded,
   Some (mkRes 403 (JMessage "Access denied. Insufficient permissions."))).
Proof. vm_compute. reflexivity. Qed.

(** ** Reading the token from the request *)

(** X1. With no usable [token] cookie, the header [Authorization: Bearer t]
    makes [t] the token, for every [t] without a space. *)
Theorem bearer_header_token (req : Request) (t : string) :
  Js.truthy (cookies req ≫= (.!! "token")) = false ->
  headers req !! "authorization" = Some ("Bearer " ++ t) ->
  has_char " " t = false ->
  token_of req = Some t.
Proof. apply token_of_bearer. Qed.

Lemma bearer_header_token_witness :
  token_of (Demo.with_header "Bearer tok-alice" Demo.sid) = Some "tok-alice".
Proof.
  apply (bearer_header_token
           (Demo.with_header "Bearer tok-alice" Demo.sid) "tok-alice").
  - reflexivity.
  - vm_compute. reflexivity.
  - reflexivity.
Defined.

(** X2. With no usable [token] cookie, a header that does not start with
    [Bearer ] is not looked into: the answer is 401, whatever the header
    holds and whatever [jwt.verify] would say. *)
Theorem other_scheme_refused (jwt_verify : string -> Verified)
    (isObjectId : string -> bool)
    (users : gmap string User.t) (req : Request) (h : string) :
  Js.truthy (cookies req ≫= (.!! "token")) = false ->
  headers req !! "authorization" = Some h ->
  Js.startsWith h "Bearer " = false ->
  authenticateToken jwt_verify isObjectId users req =
  Respond (mkRes 401 (JMessage "Access denied. No token provided.")).
Proof.
  intros Hcookie Hhdr Hscheme. unfold authenticateToken, token_of, Js.or.
  rewrite Hcookie, Hhdr, Hscheme. cbn [Js.truthy negb andb].
  destruct (negb (String.eqb h "")); reflexivity.
Qed.

Lemma other_scheme_refused_witness :
  authenticateToken Demo.jwt_verify Demo.isObjectId Demo.users
    (Demo.with_header "Basic tok-alice" Demo.sid) =
  Respond (mkRes 401 (JMessage "Access denied. No token provided.")).
Proof.
  apply (other_scheme_refused Demo.jwt_verify Demo.isObjectId Demo.users
           (Demo.with_header "Basic tok-alice" Demo.sid) "Basic tok-alice").
  - reflexivity.
  - vm_compute. reflexivity.
  - reflexivity.
Defined.

(** ** The second version of the verifier *)

(** X3. Once a cookie parser has run, the second version of the verifier
    lets through, with the same user attached, every request the first
    version lets through. *)
Theorem auth_v2_accepts_what_v1_accepts (jwt_verify : string -> Verified)
    (isObjectId : string -> bool)
    (users : gmap string User.t) (req req' : Request) :
  is_Some (cookies req) ->
  authenticateToken jwt_verify isObjectId users req = Next req' ->
  AuthV2.authenticateToken jwt_verify users req = Next req'.
Proof.
  intros [c Hc] Hnext.
  apply authenticate_next in Hnext as (t & uid & u & Ht & Hne & Hv & Hu & ->).
  assert (AuthV2.token_of c req = Some t) as Ht2.
  { unfold token_of, Js.or in Ht. unfold AuthV2.token_of, Js.or.
    rewrite Hc in Ht. cbn [mbind option_bind] in Ht.
    destruct (Js.truthy (c !! "token")) eqn:Ec.
    - cbn [negb andb] in Ht. cbv zeta in Ht. rewrite Ec in Ht.
      cbn [negb andb] in Ht. exact Ht.
    - cbv zeta in Ht. cbn [Js.truthy negb andb] in Ht.
      destruct (headers req !! "authorization") as [h|]; cbn in Ht |- *.
      + destruct (negb (String.eqb h "")); [|discriminate].
        destruct (Js.startsWith h "Bearer "); [exact Ht | discriminate].
      + discriminate. }
  unfold AuthV2.authenticateToken. rewrite Hc. cbv zeta. rewrite Ht2.
  assert (Js.truthy (Some t) = true) as -> by (apply truthy_true; eauto).
  cbn [negb default from_option id]. rewrite Hv, Hu. reflexivity.
Qed.

Lemma auth_v2_accepts_what_v1_accepts_witness :
  AuthV2.authenticateToken Demo.jwt_verify Demo.users
    (Demo.with_both "tok-alice" "Bearer tok-bob" Demo.sid) =
  Next (set_user Demo.alice
          (Demo.with_both "tok-alice" "Bearer tok-bob" Demo.sid)).
Proof.
  apply (auth_v2_accepts_what_v1_accepts Demo.jwt_verify Demo.isObjectId
    Demo.users).
  - eexists. reflexivity.
  - vm_compute. reflexivity.
Defined.

(** X4. The second version does not look at the scheme: with no usable
    cookie token, the header [scheme t] makes [t] the token for every
    [scheme] and [t] without a space. *)
Theorem auth_v2_any_scheme (c : gmap string string) (req : Request)
    (scheme t : string) :
  Js.truthy (c !! "token") = false ->
  headers req !! "authorization" = Some (scheme ++ String " " t) ->
  has_char " " scheme = false -> has_char " " t = false ->
  AuthV2.token_of c req = Some t.
Proof.
  intros Hc Hh Hs Ht. unfold AuthV2.token_of, Js.or. rewrite Hc, Hh.
  cbn [mbind option_bind]. rewrite (split_sep _ _ _ Hs), (split_no_sep _ _ Ht).
  reflexivity.
Qed.

Lemma auth_v2_any_scheme_witness :
  AuthV2.token_of ∅ (Demo.with_header "Basic tok-alice" Demo.sid) =
  Some "tok-alice".
Proof.
  apply (auth_v2_any_scheme ∅ (Demo.with_header "Basic tok-alice" Demo.sid)
           "Basic" "tok-alice").
  - reflexivity.
  - vm_compute. reflexivity.
  - reflexivity.
  - reflexivity.
Defined.

(** ** The gate in front of every endpoint *)

(** X5. Whatever the endpoint, a request the credential verifier answers
    is answered with that response (a 401, or the 500 of the verifier's
    own [catch]), the database is the one before the call and the handler
    is not run. *)
Theorem unauthenticated_not_served (jwt_verify : string -> Verified)
    (isObjectId : string -> bool)
    (isEmail : string -> bool) (db : Db) (e : Endpoint) (req : Request)
    (out : Outside) (res : Response) :
  authenticateToken jwt_verify isObjectId (Users db) req = Respond res ->
  serve jwt_verify isObjectId isEmail db (mkCall e req out) = (db, Some res) /\
  (statusCode res = 401 \/
   res = mkRes 500 (JMessage "Server error in authentication.")).
Proof.
  intros Hres. split.
  - rewrite serve_gate. simpl. rewrite Hres. reflexivity.
  - destruct (authenticate_respond _ _ _ _ _ Hres) as [H|H]; [left; exact H|].
    right. apply (authenticate_500 _ _ _ _ _ Hres H).
Qed.

Lemma unauthenticated_not_served_witness :
  serve Demo.jwt_verify Demo.isObjectId Demo.isEmail Demo.db_uploaded
    (mkCall PatientSaveAnnotated
       (Demo.with_cookie "tok-odd" Demo.sid
          {["annotatedImageData" := "data:image/png;base64,AAAA"]} None)
       (Demo.ok "u")) =
  (Demo.db_uploaded,
   Some (mkRes 500 (JMessage "Server error in authentication."))) /\
  (statusCode (mkRes 500 (JMessage "Server error in authentication.")) = 401
   \/ mkRes 500 (JMessage "Server error in authentication.") =
      mkRes 500 (JMessage "Server error in authentication.")).
Proof.
  apply (unauthenticated_not_served Demo.jwt_verify Demo.isObjectId
           Demo.isEmail Demo.db_uploaded PatientSaveAnnotated
           (Demo.with_cookie "tok-odd" Demo.sid
              {["annotatedImageData" := "data:image/png;base64,AAAA"]} None)
           (Demo.ok "u")).
  vm_compute. reflexivity.
Defined.

(** X6. Whatever the endpoint, a signed-in user whose role is not the one
    the endpoint is gated on is answered 403 and the database is the one
    before the call: no patient reaches an admin handler, no admin a
    patient handler. *)
Theorem wrong_role_forbidden (jwt_verify : string -> Verified)
    (isObjectId : string -> bool)
    (isEmail : string -> bool) (db : Db) (e : Endpoint) (req : Request)
    (out : Outside) (u : User.t) :
  signed_in jwt_verify isObjectId (Users db) req u ->
  User.role u <> endpoint_role e ->
  serve jwt_verify isObjectId isEmail db (mkCall e req out) =
  (db, Some (mkRes 403 (JMessage "Access denied. Insufficient permissions."))).
Proof.
  intros Hin Hr. rewrite serve_gate.
  exact (gate_block jwt_verify isObjectId (endpoint_role e) db [] _
    req u Hin Hr).
Qed.

Lemma wrong_role_forbidden_witness :
  serve Demo.jwt_verify Demo.isObjectId Demo.isEmail Demo.db_uploaded
    (mkCall PatientGetSubmission (request Demo.call_pdf) (Demo.ok "u")) =
  (Demo.db_uploaded,
   Some (mkRes 403 (JMessage "Access denied. Insufficient permissions."))).
Proof.
  apply (wrong_role_forbidden Demo.jwt_verify Demo.isObjectId Demo.isEmail
    Demo.db_uploaded
           PatientGetSubmission (request Demo.call_pdf) (Demo.ok "u")
           Demo.root).
  - vm_compute. reflexivity.
  - vm_compute. discriminate.
Defined.

(** X7. The status codes of the server: every response of every endpoint
    carries one of 200, 201, 400, 401, 403, 404, 500. *)
Theorem serve_status_codes (jwt_verify : string -> Verified)
    (isObjectId : string -> bool)
    (isEmail : string -> bool) (db : Db) (c : Call) (res : Response) :
  snd (serve jwt_verify isObjectId isEmail db c) = Some res ->
  statusCode res ∈ [200; 201; 400; 401; 403; 404; 500].
Proof.
  destruct c as [e req out].
  destruct (serve_cases jwt_verify isObjectId isEmail db e req out)
    as [(r & -> & Hcode) | (u & _ & _ & ->)].
  - intros [= <-]. destruct Hcode as [-> | [-> | ->]]; set_solver.
  - destruct e; open_handlers; repeat case_match; simpl;
      intros [= <-]; simpl; set_solver.
Qed.

Lemma serve_status_codes_witness :
  statusCode (mkRes 201
                (JMessageSubmission "Submission uploaded successfully"
                   Demo.s1)) ∈ [200; 201; 400; 401; 403; 404; 500].
Proof.
  apply (serve_status_codes Demo.jwt_verify Demo.isObjectId
    Demo.isEmail Demo.db0
           Demo.call_upload).
  vm_compute. reflexivity.
Defined.

(** X8. A call goes unanswered only on the first variant of the patient
    report endpoint, and only when the artifact store refused the report;
    every other call is answered. *)
Theorem unanswered_only_when_report_upload_fails
    (jwt_verify : string -> Verified)
    (isObjectId : string -> bool) (isEmail : string -> bool) (db : Db)
    (c : Call) :
  snd (serve jwt_verify isObjectId isEmail db c) = None ->
  endpoint c = PatientGenerateReport /\ cloudinary (outside c) = None.
Proof.
  destruct c as [e req out].
  destruct (serve_cases jwt_verify isObjectId isEmail db e req out)
    as [(r & -> & _) | (u & _ & _ & ->)]; [discriminate|].
  destruct e; open_handlers; repeat case_match; simpl;
    try discriminate; auto.
Qed.

Lemma unanswered_only_when_report_upload_fails_witness :
  endpoint Demo.call_report_store_down = PatientGenerateReport /\
  cloudinary (outside Demo.call_report_store_down) = None.
Proof.
  apply (unanswered_only_when_report_upload_fails Demo.jwt_verify
    Demo.isObjectId
           Demo.isEmail Demo.db_annotated Demo.call_report_store_down).
  vm_compute. reflexivity.
Defined.

(** X9. No partial success: a call that is not answered 200 or 201 leaves
    the database exactly as it was. *)
Theorem failure_leaves_database (jwt_verify : string -> Verified)
    (isObjectId : string -> bool)
    (isEmail : string -> bool) (db : Db) (c : Call) :
  (forall res, snd (serve jwt_verify isObjectId isEmail db c) = Some res ->
               statusCode res <> 200 /\ statusCode res <> 201) ->
  fst (serve jwt_verify isObjectId isEmail db c) = db.
Proof.
  destruct c as [e req out].
  destruct (serve_cases jwt_verify isObjectId isEmail db e req out)
    as [(r & -> & _) | (u & _ & _ & ->)]; [reflexivity|].
  destruct e; open_handlers; repeat case_match; simpl; try reflexivity;
    intros Hfail; destruct (Hfail _ eq_refl) as [H200 H201]; simpl in *;
    congruence.
Qed.

Lemma failure_leaves_database_witness :
  fst (serve Demo.jwt_verify Demo.isObjectId Demo.isEmail Demo.db_annotated
         Demo.call_report_store_down) = Demo.db_annotated.
Proof.
  apply (failure_leaves_database Demo.jwt_verify Demo.isObjectId Demo.isEmail
           Demo.db_annotated Demo.call_report_store_down).
  intros res. vm_compute. discriminate.
Defined.

(** X10. No endpoint writes to the users collection. *)
Theorem serve_keeps_users (jwt_verify : string -> Verified)
    (isObjectId : string -> bool)
    (isEmail : string -> bool) (db : Db) (c : Call) :
  Users (fst (serve jwt_verify isObjectId isEmail db c)) = Users db.
Proof.
  destruct (serve_effect jwt_verify isObjectId isEmail db c); reflexivity.
Qed.

(** ** Creation of a submission *)

Section Creation.

Variable jwt_verify : string -> Verified.
Variable isObjectId : string -> bool.
Variable isEmail : string -> bool.

(** [POST /upload] either stores nothing and does not answer 201, or
    passed every test and stored the document built from the form. *)
Lemma upload_cases (out : Outside) (db : Db) (req : Request) :
  (fst (upload jwt_verify isObjectId isEmail out db req) = db /\
   forall res, snd (upload jwt_verify isObjectId isEmail out db
     req) = Some res ->
               statusCode res <> 201) \/
  (exists u f url,
      accepted_upload jwt_verify isObjectId isEmail db req out u f url /\
      upload jwt_verify isObjectId isEmail out db req =
      (save (uploaded_document u req out url) db,
       Some (mkRes 201
               (JMessageSubmission "Submission uploaded successfully"
                  (uploaded_document u req out url))))).
Proof.
  unfold upload.
  destruct (gate_cases jwt_verify isObjectId "patient" db [upload_single]
              (upload_handler isEmail out db) req)
    as [(r & -> & Hcode) | (u & Hin & Hr & ->)].
  { left. split; [reflexivity|]. intros res [= <-].
    destruct Hcode as [-> | [-> | ->]]; discriminate. }
  cbn [route]. unfold upload_single. cbn [file set_user].
  destruct (file req) as [f|] eqn:Hfile.
  - destruct (Js.startsWith (mimetype f) "image/") eqn:Hmime; cbn [negb].
    2:{ left. split; [reflexivity|]. intros res [= <-]. discriminate. }
    destruct (5 * 1024 * 1024 <? size f)%N eqn:Hsize.
    { left. split; [reflexivity|]. intros res [= <-]. discriminate. }
    apply N.ltb_ge in Hsize.
    unfold upload_handler, upload_errors. cbn [body file user set_user].
    destruct (Js.truthy (body req !! "name")) eqn:Hname;
      [|left; split; [reflexivity|]; intros res [= <-]; discriminate].
    destruct (Js.truthy (body req !! "patientId")) eqn:Hpid;
      [|left; split; [reflexivity|]; intros res [= <-]; discriminate].
    destruct (isEmail (default "" (body req !! "email"))) eqn:Hemail;
      [|left; split; [reflexivity|]; intros res [= <-]; discriminate].
    cbn [app]. rewrite Hfile.
    destruct (cloudinary out) as [url|] eqn:Hcloud;
      [|left; split; [reflexivity|]; intros res [= <-]; discriminate].
    match goal with
    | |- context [Submission.validate ?d] =>
        destruct (Submission.validate d) eqn:Hval
    end; cbn [negb];
      [|left; split; [reflexivity|]; intros res [= <-]; discriminate].
    apply validate_new_inv in Hval as [Hne Hurl].
    destruct (Submissions db !! objectId out) eqn:Hfresh;
      [left; split; [reflexivity|]; intros res [= <-]; discriminate|].
    right. exists u, f, url. split; [|reflexivity].
    unfold accepted_upload. repeat split; assumption.
  - unfold upload_handler, upload_errors. cbn [body file user set_user].
    rewrite Hfile. left.
    repeat case_match; simpl; split; try reflexivity;
      intros res [= <-]; discriminate.
Qed.

(** A call other than an upload adds no document. *)
Lemma effect_adds_nothing (db db' : Db) (e : Endpoint) (id : string) :
  keyed db -> Effect db e db' -> e <> PatientUpload ->
  Submissions db !! id = None -> Submissions db' !! id = None.
Proof.
  intros Hk Heff Hne Hnone.
  destruct Heff as [e | s0 _ _ _ _ | id0 s0 url H0 | id0 s0 url j H0
                   | e id0 s0 url He H0].
  - exact Hnone.
  - contradiction.
  - rewrite save_lookup. simpl. rewrite (Hk _ _ H0).
    case_decide as Hd; [|exact Hnone].
    subst id0. rewrite Hnone in H0. discriminate.
  - rewrite save_lookup. simpl. rewrite (Hk _ _ H0).
    case_decide as Hd; [|exact Hnone].
    subst id0. rewrite Hnone in H0. discriminate.
  - rewrite save_lookup. simpl. rewrite (Hk _ _ H0).
    case_decide as Hd; [|exact Hnone].
    subst id0. rewrite Hnone in H0. discriminate.
Qed.

End Creation.

(** X11. [POST /upload] answers 201 only when everything it tests holds:
    the requester is a signed-in patient, name and patientId are not
    empty, the email passes [isEmail] and is not empty, the file is an
    image of at most 5 MiB, the artifact store accepted it under a
    reference that is not empty (the schema requires both) and the new
    [_id] is unused; the database is then the old one plus the document
    built from the form. *)
Theorem upload_201_only_if_accepted (jwt_verify : string -> Verified)
    (isObjectId : string -> bool)
    (isEmail : string -> bool) (out : Outside) (db : Db) (req : Request)
    (res : Response) :
  snd (upload jwt_verify isObjectId isEmail out db req) = Some res ->
  statusCode res = 201 ->
  exists u f url,
    accepted_upload jwt_verify isObjectId isEmail db req out u f url /\
    upload jwt_verify isObjectId isEmail out db req =
    (save (uploaded_document u req out url) db,
     Some (mkRes 201
             (JMessageSubmission "Submission uploaded successfully"
                (uploaded_document u req out url)))).
Proof.
  intros Hres Hcode.
  destruct (upload_cases jwt_verify isObjectId isEmail out db req)
    as [[_ Hno] | Hyes]; [|exact Hyes].
  destruct (Hno res Hres Hcode).
Qed.

Lemma upload_201_only_if_accepted_witness :
  exists u f url,
    accepted_upload Demo.jwt_verify Demo.isObjectId Demo.isEmail Demo.db0
      (request Demo.call_upload) (outside Demo.call_upload) u f url /\
    upload Demo.jwt_verify Demo.isObjectId Demo.isEmail
      (outside Demo.call_upload) Demo.db0
      (request Demo.call_upload) =
    (save (uploaded_document u (request Demo.call_upload)
             (outside Demo.call_upload) url) Demo.db0,
     Some (mkRes 201
             (JMessageSubmission "Submission uploaded successfully"
                (uploaded_document u (request Demo.call_upload)
                   (outside Demo.call_upload) url)))).
Proof.
  apply (upload_201_only_if_accepted Demo.jwt_verify Demo.isObjectId
    Demo.isEmail
           (outside Demo.call_upload) Demo.db0 (request Demo.call_upload)
           (mkRes 201
              (JMessageSubmission "Submission uploaded successfully"
                 Demo.s1))).
  - vm_compute. reflexivity.
  - reflexivity.
Defined.

(** A document that appears during a call was created by an accepted
    upload. *)
Lemma created_by_upload (jwt_verify : string -> Verified)
    (isObjectId : string -> bool)
    (isEmail : string -> bool) (db : Db) (c : Call) (id : string)
    (s' : Submission.t) :
  reachable jwt_verify isObjectId isEmail db ->
  Submissions db !! id = None ->
  Submissions (fst (serve jwt_verify isObjectId isEmail db c)) !!
    id = Some s' ->
  endpoint c = PatientUpload /\ id = objectId (outside c) /\
  exists u f url,
    accepted_upload jwt_verify isObjectId isEmail db (request c)
      (outside c) u f url /\
    s' = uploaded_document u (request c) (outside c) url /\
    Submission.patient s' = User._id u /\
    Submission.status s' = "uploaded".
Proof.
  intros Hreach Hnone Hs'.
  pose proof (reachable_keyed _ _ _ _ Hreach) as Hk.
  assert (endpoint c = PatientUpload \/ endpoint c <> PatientUpload)
    as [He|He]
    by (destruct (endpoint c); (left; reflexivity) || (right; discriminate)).
  2:{ rewrite (effect_adds_nothing db _ (endpoint c) id Hk
                 (serve_effect jwt_verify isObjectId isEmail db c) He
                   Hnone) in Hs'.
      discriminate. }
  split; [exact He|]. destruct c as [e req out]. simpl in He. subst e.
  unfold serve in Hs'. cbn [endpoint request outside] in *.
  destruct (upload_cases jwt_verify isObjectId isEmail out db req)
    as [[Hsame _] | (u & f & url & Hacc & Heq)].
  - rewrite Hsame, Hnone in Hs'. discriminate.
  - rewrite Heq in Hs'. cbn [fst] in Hs'. rewrite save_lookup in Hs'.
    cbn [uploaded_document Submission.new Submission._id] in Hs'.
    case_decide as Hd; [|rewrite Hnone in Hs'; discriminate].
    injection Hs' as <-. split; [symmetry; exact Hd|].
    exists u, f, url. split; [exact Hacc|]. split; [reflexivity|].
    split; reflexivity.
Qed.

(** X12. A document that is in the database after a call and was not
    there before was created by an accepted [POST /upload], under the
    [_id] the driver gave it: it is the document built from the form, its
    owner is the requester, its status is ["uploaded"]. *)
Theorem new_document_comes_from_upload (jwt_verify : string -> Verified)
    (isObjectId : string -> bool)
    (isEmail : string -> bool) (db : Db) (c : Call) (id : string)
    (s' : Submission.t) :
  reachable jwt_verify isObjectId isEmail db ->
  Submissions db !! id = None ->
  Submissions (fst (serve jwt_verify isObjectId isEmail db c)) !!
    id = Some s' ->
  endpoint c = PatientUpload /\ id = objectId (outside c) /\
  exists u f url,
    accepted_upload jwt_verify isObjectId isEmail db (request c)
      (outside c) u f url /\
    s' = uploaded_document u (request c) (outside c) url /\
    Submission.patient s' = User._id u /\
    Submission.status s' = "uploaded".
Proof. apply created_by_upload. Qed.

Lemma new_document_comes_from_upload_witness :
  endpoint Demo.call_upload = PatientUpload /\
  Demo.sid = objectId (outside Demo.call_upload) /\
  exists u f url,
    accepted_upload Demo.jwt_verify Demo.isObjectId Demo.isEmail Demo.db0
      (request Demo.call_upload) (outside Demo.call_upload) u f url /\
    Demo.s1 = uploaded_document u (request Demo.call_upload)
                (outside Demo.call_upload) url /\
    Submission.patient Demo.s1 = User._id u /\
    Submission.status Demo.s1 = "uploaded".
Proof.
  apply (new_document_comes_from_upload Demo.jwt_verify Demo.isObjectId
    Demo.isEmail
           Demo.db0 Demo.call_upload Demo.sid Demo.s1).
  - apply reach_start.
  - reflexivity.
  - vm_compute. reflexivity.
Defined.

(** ** What never changes, and what every stored submission satisfies *)

Lemma change_snapshot (e : Endpoint) (s s' : Submission.t) :
  change e s s' ->
  Submission._id s' = Submission._id s /\
  Submission.patient s' = Submission.patient s /\
  Submission.name s' = Submission.name s /\
  Submission.patientId s' = Submission.patientId s /\
  Submission.email s' = Submission.email s /\
  Submission.note s' = Submission.note s /\
  Submission.imageUrl s' = Submission.imageUrl s.
Proof.
  intros [-> | [(_ & url & ->) | [(_ & url & j & ->) | (_ & url & ->)]]];
    simpl; repeat split.
Qed.

Lemma truthy_default_ne (v : option string) :
  Js.truthy v = true -> default "" v <> "".
Proof. intros (s & -> & Hne)%truthy_true. exact Hne. Qed.

Section StoredSubmissions.

Variable jwt_verify : string -> Verified.
Variable isObjectId : string -> bool.
Variable isEmail : string -> bool.

(** A document stored after a call was stored before, up to [change], or
    is the document of an accepted upload. *)
Lemma serve_lookup_after (db : Db) (c : Call) (id : string)
    (s' : Submission.t) :
  reachable jwt_verify isObjectId isEmail db ->
  Submissions (fst (serve jwt_verify isObjectId isEmail db c)) !!
    id = Some s' ->
  (exists s, Submissions db !! id = Some s /\ change (endpoint c) s s') \/
  (exists u f url,
      accepted_upload jwt_verify isObjectId isEmail db (request c)
        (outside c) u f url /\
      s' = uploaded_document u (request c) (outside c) url).
Proof.
  intros Hreach Hs'.
  destruct (Submissions db !! id) as [s|] eqn:Hs.
  - left. exists s. split; [reflexivity|].
    destruct (effect_lookup db _ (endpoint c) id s
                (reachable_keyed _ _ _ _ Hreach)
                (serve_effect jwt_verify isObjectId isEmail db c) Hs)
      as (s1 & Hs1 & Hc).
    rewrite Hs' in Hs1. injection Hs1 as <-. exact Hc.
  - right.
    destruct (created_by_upload jwt_verify isObjectId isEmail db c id s'
      Hreach Hs Hs')
      as (_ & _ & u & f & url & Hacc & Heq & _).
    exists u, f, url. auto.
Qed.

Lemma stored_validated (db : Db) :
  reachable jwt_verify isObjectId isEmail db ->
  forall id s, Submissions db !! id = Some s ->
    Submission.name s <> "" /\ Submission.patientId s <> "" /\
    isEmail (Submission.email s) = true.
Proof.
  induction 1 as [users | db c Hreach IH | db users _ IH].
  - intros id s H. simpl in H. rewrite lookup_empty in H. discriminate.
  - intros id s' Hs'.
    destruct (serve_lookup_after db c id s' Hreach Hs')
      as [(s & Hs & Hc) | (u & f & url & Hacc & ->)].
    + destruct (change_snapshot _ _ _ Hc) as (_ & _ & -> & -> & -> & _).
      exact (IH id s Hs).
    + destruct Hacc as (_ & _ & Hname & Hpid & Hemail & _). simpl.
      repeat split; [apply truthy_default_ne, Hname
                    | apply truthy_default_ne, Hpid | exact Hemail].
  - exact IH.
Qed.

Lemma stored_artifacts (db : Db) :
  reachable jwt_verify isObjectId isEmail db ->
  forall id s, Submissions db !! id = Some s ->
    (Submission.status s = "uploaded" ->
     Submission.annotationJson s = None /\
     Submission.annotatedImageUrl s = None /\
     Submission.reportUrl s = None) /\
    (is_Some (Submission.annotationJson s) ->
     is_Some (Submission.annotatedImageUrl s)).
Proof.
  induction 1 as [users | db c Hreach IH | db users _ IH].
  - intros id s H. simpl in H. rewrite lookup_empty in H. discriminate.
  - intros id s' Hs'.
    destruct (serve_lookup_after db c id s' Hreach Hs')
      as [(s & Hs & Hc) | (u & f & url & Hacc & ->)].
    + destruct (IH id s Hs) as [Hup Hjson].
      destruct Hc as [-> | [(_ & url & ->) | [(_ & url & j & ->)
                     | (_ & url & ->)]]]; simpl.
      * auto.
      * split; [discriminate | eauto].
      * split; [discriminate | eauto].
      * split; [discriminate | exact Hjson].
    + simpl. split; [auto|]. intros [x [=]].
  - exact IH.
Qed.

End StoredSubmissions.

(** X13. The snapshot taken at upload never changes: no call modifies the
    [_id], owner, name, patientId, email, note or original image reference
    of a stored submission. *)
Theorem snapshot_never_changes (jwt_verify : string -> Verified)
    (isObjectId : string -> bool)
    (isEmail : string -> bool) (db : Db) (c : Call) (id : string)
    (s s' : Submission.t) :
  reachable jwt_verify isObjectId isEmail db ->
  Submissions db !! id = Some s ->
  Submissions (fst (serve jwt_verify isObjectId isEmail db c)) !!
    id = Some s' ->
  Submission._id s' = Submission._id s /\
  Submission.patient s' = Submission.patient s /\
  Submission.name s' = Submission.name s /\
  Submission.patientId s' = Submission.patientId s /\
  Submission.email s' = Submission.email s /\
  Submission.note s' = Submission.note s /\
  Submission.imageUrl s' = Submission.imageUrl s.
Proof.
  intros Hreach Hs Hs'.
  destruct (effect_lookup db _ (endpoint c) id s
              (reachable_keyed _ _ _ _ Hreach)
              (serve_effect jwt_verify isObjectId isEmail db c) Hs) as
                (s1 & Hs1 & Hc).
  rewrite Hs' in Hs1. injection Hs1 as <-. apply (change_snapshot _ _ _ Hc).
Qed.

Lemma snapshot_never_changes_witness :
  Submission._id (Submission.set_reported "https://cdn/s1-report.pdf" Demo.s1)
    = Submission._id Demo.s1 /\
  Submission.patient
    (Submission.set_reported "https://cdn/s1-report.pdf" Demo.s1)
    = Submission.patient Demo.s1 /\
  Submission.name (Submission.set_reported "https://cdn/s1-report.pdf" Demo.s1)
    = Submission.name Demo.s1 /\
  Submission.patientId
    (Submission.set_reported "https://cdn/s1-report.pdf" Demo.s1)
    = Submission.patientId Demo.s1 /\
  Submission.email
    (Submission.set_reported "https://cdn/s1-report.pdf" Demo.s1)
    = Submission.email Demo.s1 /\
  Submission.note (Submission.set_reported "https://cdn/s1-report.pdf" Demo.s1)
    = Submission.note Demo.s1 /\
  Submission.imageUrl
    (Submission.set_reported "https://cdn/s1-report.pdf" Demo.s1)
    = Submission.imageUrl Demo.s1.
Proof.
  apply (snapshot_never_changes Demo.jwt_verify Demo.isObjectId Demo.isEmail
    Demo.db_uploaded
           Demo.call_report Demo.sid).
  - apply (reachable_run Demo.jwt_verify Demo.isObjectId Demo.isEmail Demo.users
             [Demo.call_upload]).
  - vm_compute. reflexivity.
  - vm_compute. reflexivity.
Defined.

(** X14. Every submission the server ever stores sits under its own
    [_id] and has a non-empty name, a non-empty patientId and an email the
    validator accepted: malformed forms never reach the database. *)
Theorem stored_fields_validated (jwt_verify : string -> Verified)
    (isObjectId : string -> bool)
    (isEmail : string -> bool) (db : Db) (id : string) (s : Submission.t) :
  reachable jwt_verify isObjectId isEmail db ->
  Submissions db !! id = Some s ->
  Submission._id s = id /\
  Submission.name s <> "" /\ Submission.patientId s <> "" /\
  isEmail (Submission.email s) = true.
Proof.
  intros Hreach Hs. split.
  - apply (reachable_keyed _ _ _ _ Hreach _ _ Hs).
  - apply (stored_validated _ _ _ _ Hreach _ _ Hs).
Qed.

Lemma stored_fields_validated_witness :
  Submission._id Demo.s1 = Demo.sid /\
  Submission.name Demo.s1 <> "" /\ Submission.patientId Demo.s1 <> "" /\
  Demo.isEmail (Submission.email Demo.s1) = true.
Proof.
  apply (stored_fields_validated Demo.jwt_verify Demo.isObjectId Demo.isEmail
           Demo.db_uploaded Demo.sid Demo.s1).
  - apply (reachable_run Demo.jwt_verify Demo.isObjectId Demo.isEmail Demo.users
             [Demo.call_upload]).
  - vm_compute. reflexivity.
Defined.

(** X15. In every database the server can be in, a submission whose
    status is ["uploaded"] has no annotation, no annotated image and no
    report, and a submission that has an annotation has an annotated
    image. *)
Theorem stored_artifacts_follow_status (jwt_verify : string -> Verified)
    (isObjectId : string -> bool)
    (isEmail : string -> bool) (db : Db) (id : string) (s : Submission.t) :
  reachable jwt_verify isObjectId isEmail db ->
  Submissions db !! id = Some s ->
  (Submission.status s = "uploaded" ->
   Submission.annotationJson s = None /\
   Submission.annotatedImageUrl s = None /\
   Submission.reportUrl s = None) /\
  (is_Some (Submission.annotationJson s) ->
   is_Some (Submission.annotatedImageUrl s)).
Proof. intros Hreach Hs. apply (stored_artifacts _ _ _ _ Hreach _ _ Hs). Qed.

Lemma stored_artifacts_follow_status_witness :
  (Submission.status Demo.s1 = "uploaded" ->
   Submission.annotationJson Demo.s1 = None /\
   Submission.annotatedImageUrl Demo.s1 = None /\
   Submission.reportUrl Demo.s1 = None) /\
  (is_Some (Submission.annotationJson Demo.s1) ->
   is_Some (Submission.annotatedImageUrl Demo.s1)).
Proof.
  apply (stored_artifacts_follow_status Demo.jwt_verify Demo.isObjectId
    Demo.isEmail
           Demo.db_uploaded Demo.sid Demo.s1).
  - apply (reachable_run Demo.jwt_verify Demo.isObjectId Demo.isEmail Demo.users
             [Demo.call_upload]).
  - vm_compute. reflexivity.
Defined.

(** ** How calls compose *)

Section Composition.

Variable jwt_verify : string -> Verified.
Variable isObjectId : string -> bool.
Variable isEmail : string -> bool.

(** [POST /save-annotated/:id] on a submission of the requester, with a
    payload: the answer of the artifact store decides alone. *)
Lemma save_annotated_owned (out : Outside) (db : Db) (req : Request)
    (u : User.t) (s : Submission.t) :
  signed_in jwt_verify isObjectId (Users db) req u -> User.role u = "patient" ->
  Js.truthy (body req !! "annotatedImageData") = true ->
  Submissions db !! params_id req = Some s ->
  Submission.patient s = User._id u ->
  save_annotated jwt_verify isObjectId out db req =
  match cloudinary out with
  | None => (db, Some (mkRes 500 (JMessage "Server error")))
  | Some url =>
      (save (Submission.set_annotated url s) db,
       Some (mkRes 200
               (JMessageUrl "Annotated image saved successfully"
                  "annotatedImageUrl" url)))
  end.
Proof.
  intros Hin Hr Hdata Hs Hown. unfold save_annotated.
  rewrite (gate_only_pass jwt_verify isObjectId _ _ _ _ u Hin Hr).
  unfold save_annotated_handler. cbn [body user params_id set_user].
  rewrite Hdata. cbn [negb]. rewrite <- Hown, (findOne_own _ _ _ _ Hs).
  reflexivity.
Qed.

(** An accepted upload stores the document built from the form. *)
Lemma upload_accepted (out : Outside) (db : Db) (req : Request) (u : User.t)
    (f : File) (url : string) :
  accepted_upload jwt_verify isObjectId isEmail db req out u f url ->
  upload jwt_verify isObjectId isEmail out db req =
  (save (uploaded_document u req out url) db,
   Some (mkRes 201
           (JMessageSubmission "Submission uploaded successfully"
              (uploaded_document u req out url)))).
Proof.
  intros (Hin & Hr & Hname & Hpid & Hemail & Hfile & Hmime & Hsize & Hcloud
          & Hne & Hurl & Hfresh).
  unfold upload.
  rewrite (gate_pass jwt_verify isObjectId "patient" db [upload_single] _
    req u Hin Hr).
  cbn [route]. unfold upload_single. cbn [file set_user].
  rewrite Hfile, Hmime. cbn [negb].
  apply N.ltb_ge in Hsize. rewrite Hsize.
  unfold upload_handler, upload_errors. cbn [body file user set_user].
  rewrite Hname, Hpid, Hemail. cbn [app].
  rewrite Hfile, Hcloud.
  rewrite (validate_new _ _ _ _ _ _ _ (truthy_default_ne _ Hname)
             (truthy_default_ne _ Hpid) Hne Hurl). cbn [negb].
  rewrite Hfresh. reflexivity.
Qed.

Lemma two_saves (out1 out2 : Outside) (db : Db) (req1 req2 : Request)
    (u : User.t) (s : Submission.t) (url1 url2 : string) :
  keyed db ->
  signed_in jwt_verify isObjectId (Users db) req1 u ->
  signed_in jwt_verify isObjectId (Users db) req2 u -> User.role u =
    "patient" ->
  params_id req2 = params_id req1 ->
  Js.truthy (body req1 !! "annotatedImageData") = true ->
  Js.truthy (body req2 !! "annotatedImageData") = true ->
  Submissions db !! params_id req1 = Some s ->
  Submission.patient s = User._id u ->
  cloudinary out1 = Some url1 -> cloudinary out2 = Some url2 ->
  save_annotated jwt_verify isObjectId out2
    (fst (save_annotated jwt_verify isObjectId out1 db req1)) req2 =
  (save (Submission.set_annotated url2 s)
     (save (Submission.set_annotated url1 s) db),
   Some (mkRes 200
           (JMessageUrl "Annotated image saved successfully"
              "annotatedImageUrl" url2))).
Proof.
  intros Hk Hin1 Hin2 Hr Hid Hd1 Hd2 Hs Hown Hc1 Hc2.
  rewrite (save_annotated_owned out1 db req1 u s Hin1 Hr Hd1 Hs Hown), Hc1.
  cbn [fst].
  rewrite (save_annotated_owned out2 _ req2 u
    (Submission.set_annotated url1 s));
    try assumption.
  - rewrite Hc2. reflexivity.
  - rewrite Hid. apply save_lookup_own with (s := s);
      [exact Hk | exact Hs | reflexivity].
Qed.

End Composition.

(** X16. Saving an annotated image twice: when the owner saves a second
    annotated image on the same submission, both calls are answered 200,
    the second image reference is the one stored, the status is
    ["annotated"] and nothing else of the submission differs from what one
    save would have left. *)
Theorem save_annotated_twice (jwt_verify : string -> Verified)
    (isObjectId : string -> bool)
    (isEmail : string -> bool) (out1 out2 : Outside) (db : Db)
    (req1 req2 : Request) (u : User.t) (s : Submission.t)
    (url1 url2 : string) :
  reachable jwt_verify isObjectId isEmail db ->
  signed_in jwt_verify isObjectId (Users db) req1 u ->
  signed_in jwt_verify isObjectId (Users db) req2 u -> User.role u =
    "patient" ->
  params_id req2 = params_id req1 ->
  Js.truthy (body req1 !! "annotatedImageData") = true ->
  Js.truthy (body req2 !! "annotatedImageData") = true ->
  Submissions db !! params_id req1 = Some s ->
  Submission.patient s = User._id u ->
  cloudinary out1 = Some url1 -> cloudinary out2 = Some url2 ->
  let db1 := fst (save_annotated jwt_verify isObjectId out1 db req1) in
  let r2 := save_annotated jwt_verify isObjectId out2 db1 req2 in
  snd r2 =
    Some (mkRes 200
            (JMessageUrl "Annotated image saved successfully"
               "annotatedImageUrl" url2)) /\
  Submissions (fst r2) !! params_id req1 =
    Some (Submission.set_annotated url2 s) /\
  Submission.annotatedImageUrl (Submission.set_annotated url2 s) = Some url2 /\
  Submission.status (Submission.set_annotated url2 s) = "annotated".
Proof.
  intros Hreach Hin1 Hin2 Hr Hid Hd1 Hd2 Hs Hown Hc1 Hc2 db1 r2.
  pose proof (reachable_keyed _ _ _ _ Hreach) as Hk.
  subst r2 db1.
  rewrite (two_saves jwt_verify isObjectId out1 out2 db req1 req2 u
    s url1 url2);
    try assumption.
  split; [reflexivity|]. split; [|split; reflexivity].
  cbn [fst]. rewrite save_lookup. cbn [Submission.set_annotated Submission._id].
  rewrite (Hk _ _ Hs). case_decide; [reflexivity | contradiction].
Qed.

Lemma save_annotated_twice_witness :
  Submissions
    (fst (save_annotated Demo.jwt_verify Demo.isObjectId
      (Demo.ok "https://cdn/second.png")
            (fst (save_annotated Demo.jwt_verify Demo.isObjectId
                    (outside Demo.call_save_annotated) Demo.db_uploaded
                    (request Demo.call_save_annotated)))
            (request Demo.call_save_annotated)))
    !! params_id (request Demo.call_save_annotated) =
  Some (Submission.set_annotated "https://cdn/second.png" Demo.s1).
Proof.
  apply (save_annotated_twice Demo.jwt_verify Demo.isObjectId Demo.isEmail
           (outside Demo.call_save_annotated)
           (Demo.ok "https://cdn/second.png") Demo.db_uploaded
           (request Demo.call_save_annotated)
           (request Demo.call_save_annotated) Demo.alice Demo.s1
           "https://cdn/s1-annotated.png" "https://cdn/second.png").
  - apply (reachable_run Demo.jwt_verify Demo.isObjectId Demo.isEmail Demo.users
             [Demo.call_upload]).
  - vm_compute. reflexivity.
  - vm_compute. reflexivity.
  - reflexivity.
  - reflexivity.
  - vm_compute. reflexivity.
  - vm_compute. reflexivity.
  - vm_compute. reflexivity.
  - reflexivity.
  - reflexivity.
  - reflexivity.
Defined.

(** X17. The whole lifecycle: an accepted upload, then the owner saving an
    annotated image whose reference is not empty, then an admin asking for
    the PDF with the image fetched and the report stored.  The three calls
    are answered 201, 200, 200 and the submission ends as the uploaded
    document with that annotated image, that report and the status
    ["reported"]. *)
Theorem upload_annotate_report (jwt_verify : string -> Verified)
    (isObjectId : string -> bool)
    (isEmail : string -> bool) (db : Db) (req req_a req_p : Request)
    (out out_a out_p : Outside) (u adm : User.t) (f : File)
    (url url_a url_r : string) :
  accepted_upload jwt_verify isObjectId isEmail db req out u f url ->
  signed_in jwt_verify isObjectId (Users db) req_a u ->
  params_id req_a = objectId out ->
  Js.truthy (body req_a !! "annotatedImageData") = true ->
  cloudinary out_a = Some url_a -> url_a <> "" ->
  signed_in jwt_verify isObjectId (Users db) req_p adm -> User.role
    adm = "admin" ->
  params_id req_p = objectId out ->
  axios out_p = true -> cloudinary out_p = Some url_r ->
  let doc := uploaded_document u req out url in
  let final := Submission.set_reported url_r
                 (Submission.set_annotated url_a doc) in
  let r1 := upload jwt_verify isObjectId isEmail out db req in
  let r2 := save_annotated jwt_verify isObjectId out_a (fst r1) req_a in
  let r3 := generate_pdf jwt_verify isObjectId out_p (fst r2) req_p in
  (exists j1, snd r1 = Some (mkRes 201 j1)) /\
  (exists j2, snd r2 = Some (mkRes 200 j2)) /\
  snd r3 =
    Some (mkRes 200
            (JMessageUrl "PDF generated successfully" "reportUrl" url_r)) /\
  Submissions (fst r3) !! objectId out = Some final /\
  Submission.status final = "reported" /\
  Submission.annotatedImageUrl final = Some url_a /\
  Submission.reportUrl final = Some url_r.
Proof.
  intros Hacc Hin_a Hid_a Hdata Hcloud_a Hne Hin_p Hadm Hid_p Hax Hcloud_p
    doc final. cbv zeta.
  pose proof Hacc as (_ & Hr & _).
  rewrite (upload_accepted jwt_verify isObjectId isEmail out db req u
    f url Hacc).
  fold doc. cbn [fst snd].
  assert (Submissions (save doc db) !! params_id req_a = Some doc) as L1.
  { rewrite Hid_a, save_lookup. simpl.
    case_decide; [reflexivity | contradiction]. }
  rewrite (save_annotated_owned jwt_verify isObjectId out_a
    (save doc db) req_a u doc
             Hin_a Hr Hdata L1 eq_refl).
  rewrite Hcloud_a. cbn [fst snd].
  assert (Submissions (save (Submission.set_annotated url_a doc) (save doc db))
            !! params_id req_p = Some (Submission.set_annotated url_a doc))
    as L2.
  { rewrite Hid_p, save_lookup. simpl.
    case_decide; [reflexivity | contradiction]. }
  rewrite (generate_pdf_found jwt_verify isObjectId out_p
             (save (Submission.set_annotated url_a doc) (save doc db))
             req_p adm (Submission.set_annotated url_a doc) Hin_p Hadm L2).
  cbn [Submission.set_annotated Submission.annotatedImageUrl].
  assert (Js.truthy (Some url_a) = true) as ->
    by (apply truthy_true; eauto).
  rewrite Hax, Hcloud_p. cbn [negb fst snd].
  split; [eauto|]. split; [eauto|]. split; [reflexivity|].
  split; [|repeat split].
  rewrite save_lookup. simpl. case_decide; [reflexivity | contradiction].
Qed.

Lemma upload_annotate_report_witness :
  Submissions
    (fst (generate_pdf Demo.jwt_verify Demo.isObjectId (outside Demo.call_pdf)
            (fst (save_annotated Demo.jwt_verify Demo.isObjectId
                    (outside Demo.call_save_annotated)
                    (fst (upload Demo.jwt_verify Demo.isObjectId Demo.isEmail
                            (outside Demo.call_upload) Demo.db0
                            (request Demo.call_upload)))
                    (request Demo.call_save_annotated)))
            (request Demo.call_pdf)))
    !! objectId (outside Demo.call_upload) =
  Some (Submission.set_reported "https://cdn/report-s1.pdf"
          (Submission.set_annotated "https://cdn/s1-annotated.png"
             (uploaded_document Demo.alice (request Demo.call_upload)
                (outside Demo.call_upload) "https://cdn/s1.png"))).
Proof.
  edestruct (upload_annotate_report Demo.jwt_verify Demo.isObjectId
    Demo.isEmail Demo.db0
               (request Demo.call_upload) (request Demo.call_save_annotated)
               (request Demo.call_pdf) (outside Demo.call_upload)
               (outside Demo.call_save_annotated) (outside Demo.call_pdf)
               Demo.alice Demo.root Demo.png "https://cdn/s1.png"
               "https://cdn/s1-annotated.png" "https://cdn/report-s1.pdf")
    as (_ & _ & _ & Hfinal & _); [..|exact Hfinal].
  - unfold accepted_upload.
    repeat split; try (vm_compute; reflexivity); vm_compute; discriminate.
  - vm_compute. reflexivity.
  - reflexivity.
  - vm_compute. reflexivity.
  - reflexivity.
  - discriminate.
  - vm_compute. reflexivity.
  - reflexivity.
  - reflexivity.
  - reflexivity.
  - reflexivity.
Defined.

(** ** The versions of a route against each other *)

(** What the gate does with a request does not depend on the handler
    behind it. *)
Lemma gate_decides (jwt_verify : string -> Verified)
    (isObjectId : string -> bool) (r : string) (db : Db)
    (mws : list (Request -> Step)) (req : Request) :
  (exists res,
      (statusCode res = 401 \/ statusCode res = 403 \/
       statusCode res = 500) /\
      forall h, route (gate jwt_verify isObjectId r db ++ mws) h db req =
                (db, Some res)) \/
  (exists u,
      signed_in jwt_verify isObjectId (Users db) req u /\ User.role u = r /\
      forall h, route (gate jwt_verify isObjectId r db ++ mws) h db req =
                route mws h db (set_user u req)).
Proof.
  destruct (authenticateToken jwt_verify isObjectId (Users db) req) as
    [res|req'] eqn:E.
  - left. exists res. split;
      [destruct (authenticate_respond _ _ _ _ _ E) as [H|H]; auto|].
    intros h. simpl. rewrite E. reflexivity.
  - pose proof E as E'.
    apply authenticate_next in E' as (t & uid & u & _ & _ & _ & _ & ->).
    destruct (String.eqb_spec (User.role u) r) as [Hr|Hr].
    + right. exists u. split; [exact E|]. split; [exact Hr|].
      intros h. apply gate_pass; assumption.
    + left.
      exists (mkRes 403 (JMessage "Access denied. Insufficient permissions.")).
      split; [right; left; reflexivity|].
      intros h.
      apply (gate_block jwt_verify isObjectId r db mws h req u E Hr).
Qed.

(** X18. The two variants of the patient report endpoint leave the same
    database on every input and give the same response, except when the
    artifact store refuses the report of a submission the requester owns:
    there the first variant writes nothing and the second answers 500. *)
Theorem report_variants_agree (jwt_verify : string -> Verified)
    (isObjectId : string -> bool)
    (out : Outside) (db : Db) (req : Request) :
  fst (generate_report jwt_verify isObjectId out db req) =
  fst (generate_report_stream jwt_verify isObjectId out db req) /\
  (snd (generate_report jwt_verify isObjectId out db req) =
   snd (generate_report_stream jwt_verify isObjectId out db req) \/
   (cloudinary out = None /\
    snd (generate_report jwt_verify isObjectId out db req) = None /\
    snd (generate_report_stream jwt_verify isObjectId out db req) =
    Some (mkRes 500 (JMessage "Failed to upload PDF")))).
Proof.
  unfold generate_report, generate_report_stream.
  destruct (gate_decides jwt_verify isObjectId "patient" db [] req)
    as [(r & _ & E) | (u & _ & _ & E)].
  - pose proof (E (generate_report_handler isObjectId out db)) as E1.
    pose proof (E (generate_report_stream_handler isObjectId out db)) as E2.
    change (gate jwt_verify isObjectId "patient" db ++ [])%list
      with (gate jwt_verify isObjectId "patient" db) in E1, E2.
    rewrite E1, E2. auto.
  - pose proof (E (generate_report_handler isObjectId out db)) as E1.
    pose proof (E (generate_report_stream_handler isObjectId out db)) as E2.
    change (gate jwt_verify isObjectId "patient" db ++ [])%list
      with (gate jwt_verify isObjectId "patient" db) in E1, E2.
    rewrite E1, E2. cbn [route].
    unfold generate_report_handler, generate_report_stream_handler,
      server_error, not_found, send.
    repeat case_match; simpl; auto.
Qed.

(** X19. The third version of [POST /upload] does to the database what
    the first does and answers with the same status code, on every
    input. *)
Theorem upload_v3_agrees (jwt_verify : string -> Verified)
    (isObjectId : string -> bool)
    (isEmail : string -> bool) (out : Outside) (db : Db) (req : Request) :
  fst (upload_v3 jwt_verify isObjectId isEmail out db req) =
  fst (upload jwt_verify isObjectId isEmail out db req) /\
  (statusCode <$> snd (upload_v3 jwt_verify isObjectId isEmail out db req)) =
  (statusCode <$> snd (upload jwt_verify isObjectId isEmail out db req)).
Proof.
  unfold upload_v3, upload.
  destruct (gate_decides jwt_verify isObjectId "patient" db [upload_single] req)
    as [(r & _ & E) | (u & _ & _ & E)].
  - rewrite (E (upload_handler isEmail out db)),
      (E (upload_v3_handler isEmail out db)). auto.
  - rewrite (E (upload_handler isEmail out db)),
      (E (upload_v3_handler isEmail out db)). cbn [route].
    assert (upload_single (set_user u req) = Next (set_user u req) \/
            exists r, upload_single (set_user u req) = Respond r) as
              [-> | [r ->]]
      by (unfold upload_single; repeat case_match; eauto); [|auto].
    unfold upload_v3_handler, upload_handler, upload_v3_errors, upload_errors.
    cbn [body file user set_user].
    destruct (Js.truthy (body req !! "name")),
      (Js.truthy (body req !! "patientId")),
      (isEmail (default "" (body req !! "email"))); cbn [app];
      split; reflexivity.
Qed.

(** X20. The second version of [POST /upload] never stores a submission
    and never answers 201: whatever the request and the artifact store,
    the database is the one before the call and the answer is a 400, a
    401, a 403 or a 500. *)
Theorem upload_v2_stores_nothing (jwt_verify : string -> Verified)
    (isObjectId : string -> bool)
    (error_message : option string) (out : Outside) (db : Db)
    (req : Request) :
  fst (upload_v2 jwt_verify isObjectId error_message out db req) = db /\
  exists res,
    snd (upload_v2 jwt_verify isObjectId error_message out db req) = Some res /\
    statusCode res ∈ [400; 401; 403; 500].
Proof.
  unfold upload_v2.
  destruct (gate_decides jwt_verify isObjectId "patient" db [upload_single] req)
    as [(r & Hcode & E) | (u & _ & _ & E)].
  - rewrite E. split; [reflexivity|]. exists r. split; [reflexivity|].
    destruct Hcode as [-> | [-> | ->]]; set_solver.
  - rewrite E. cbn [route]. unfold upload_single, upload_v2_handler, send.
    repeat case_match; simpl; (split; [reflexivity|]);
      eexists; (split; [reflexivity|]); simpl; set_solver.
Qed.

(** ** Errors and edges of the handlers *)

(** X21. A file multer refuses, because it is not an image or is larger
    than 5 MiB, stops every version of [POST /upload] before its handler:
    the answer is the 500 of the error middleware and nothing is stored,
    whatever the form holds. *)
Theorem refused_file_never_stored (jwt_verify : string -> Verified)
    (isObjectId : string -> bool)
    (isEmail : string -> bool) (error_message : option string)
    (out : Outside) (db : Db) (req : Request) (u : User.t) (f : File) :
  signed_in jwt_verify isObjectId (Users db) req u -> User.role u = "patient" ->
  file req = Some f ->
  Js.startsWith (mimetype f) "image/" = false \/
  (5 * 1024 * 1024 < size f)%N ->
  upload jwt_verify isObjectId isEmail out db req =
    (db, Some (mkRes 500 (JMessage "Something went wrong!"))) /\
  upload_v2 jwt_verify isObjectId error_message out db req =
    (db, Some (mkRes 500 (JMessage "Something went wrong!"))) /\
  upload_v3 jwt_verify isObjectId isEmail out db req =
    (db, Some (mkRes 500 (JMessage "Something went wrong!"))).
Proof.
  intros Hin Hr Hfile Hbad. unfold upload, upload_v2, upload_v3.
  rewrite !(gate_pass jwt_verify isObjectId "patient" db [upload_single] _
    req u Hin Hr).
  cbn [route]. unfold upload_single. cbn [file set_user]. rewrite Hfile.
  destruct Hbad as [-> | Hbig]; cbn [negb]; [auto|].
  apply N.ltb_lt in Hbig. rewrite Hbig.
  destruct (negb (Js.startsWith (mimetype f) "image/")); auto.
Qed.

Lemma refused_file_never_stored_witness :
  upload Demo.jwt_verify Demo.isObjectId Demo.isEmail
    (outside Demo.call_upload) Demo.db0
    (Demo.with_cookie "tok-alice" "" Demo.jane_form
       (Some (mkFile "application/pdf" "scan.pdf" 2048))) =
  (Demo.db0, Some (mkRes 500 (JMessage "Something went wrong!"))).
Proof.
  apply (refused_file_never_stored Demo.jwt_verify Demo.isObjectId
    Demo.isEmail None
           (outside Demo.call_upload) Demo.db0
           (Demo.with_cookie "tok-alice" "" Demo.jane_form
              (Some (mkFile "application/pdf" "scan.pdf" 2048)))
           Demo.alice (mkFile "application/pdf" "scan.pdf" 2048)).
  - vm_compute. reflexivity.
  - reflexivity.
  - reflexivity.
  - left. reflexivity.
Defined.

(** X22. Admin routes are not scoped by owner: for a signed-in admin and
    any stored submission, whoever owns it, get-by-id is answered 200, and
    an annotation with both fields present and an accepted image is
    answered 200 and stores the annotation, the image reference and the
    status ["annotated"], leaving the report reference as it was. *)
Theorem admin_reaches_any_submission (jwt_verify : string -> Verified)
    (isObjectId : string -> bool)
    (out : Outside) (db : Db) (req : Request) (u : User.t)
    (s : Submission.t) :
  signed_in jwt_verify isObjectId (Users db) req u -> User.role u = "admin" ->
  Submissions db !! params_id req = Some s ->
  (exists j, admin_get jwt_verify isObjectId db req =
    (db, Some (mkRes 200 j))) /\
  (forall url,
     Js.truthy (body req !! "annotationJson") = true ->
     Js.truthy (body req !! "annotatedImage") = true ->
     cloudinary out = Some url ->
     let s' := Submission.set_annotated url
                 (Submission.set_annotationJson (body req !! "annotationJson")
                    s) in
     annotate jwt_verify isObjectId out db req =
       (save s' db,
        Some (mkRes 200
                (JMessageSubmission "Annotation saved successfully" s'))) /\
     Submission.status s' = "annotated" /\
     Submission.annotatedImageUrl s' = Some url /\
     Submission.annotationJson s' = body req !! "annotationJson" /\
     Submission.reportUrl s' = Submission.reportUrl s).
Proof.
  intros Hin Hr Hs. split.
  - unfold admin_get.
    rewrite (gate_only_pass jwt_verify isObjectId "admin" db _ req u Hin Hr).
    unfold admin_get_handler, findById. cbn [params_id set_user].
    rewrite Hs. eauto.
  - intros url Hj Hi Hcloud s'. split; [|repeat split].
    unfold annotate.
    rewrite (gate_only_pass jwt_verify isObjectId "admin" db _ req u Hin Hr).
    unfold annotate_handler, annotate_errors, findById.
    cbn [body params_id set_user]. rewrite Hj, Hi. cbn [app].
    rewrite Hs, Hcloud. reflexivity.
Qed.

Lemma admin_reaches_any_submission_witness :
  exists j,
    admin_get Demo.jwt_verify Demo.isObjectId Demo.db_uploaded
      (request Demo.call_annotate) =
    (Demo.db_uploaded, Some (mkRes 200 j)).
Proof.
  apply (admin_reaches_any_submission Demo.jwt_verify Demo.isObjectId
           (outside Demo.call_annotate) Demo.db_uploaded
           (request Demo.call_annotate) Demo.root Demo.s1).
  - vm_compute. reflexivity.
  - reflexivity.
  - vm_compute. reflexivity.
Defined.

(** X23. [POST /submissions/:id/annotate] validates before it looks the
    submission up: with the annotation or the annotated image missing, a
    signed-in admin is answered 400 with the message of each missing
    field, whether or not the id exists, and nothing is stored. *)
Theorem annotate_validates_first (jwt_verify : string -> Verified)
    (isObjectId : string -> bool)
    (out : Outside) (db : Db) (req : Request) (u : User.t) :
  signed_in jwt_verify isObjectId (Users db) req u -> User.role u = "admin" ->
  Js.truthy (body req !! "annotationJson") = false \/
  Js.truthy (body req !! "annotatedImage") = false ->
  annotate jwt_verify isObjectId out db req =
    (db, Some (mkRes 400 (JErrors (annotate_errors req)))) /\
  ("Annotation JSON is required" ∈ annotate_errors req <->
   Js.truthy (body req !! "annotationJson") = false) /\
  ("Annotated image is required" ∈ annotate_errors req <->
   Js.truthy (body req !! "annotatedImage") = false).
Proof.
  intros Hin Hr Hmissing. unfold annotate.
  rewrite (gate_only_pass jwt_verify isObjectId "admin" db _ req u Hin Hr).
  unfold annotate_handler, annotate_errors. cbn [body set_user].
  destruct (Js.truthy (body req !! "annotationJson")),
    (Js.truthy (body req !! "annotatedImage")); cbn [app];
    [destruct Hmissing; discriminate | ..];
    (split; [reflexivity|]); rewrite ?elem_of_cons, ?elem_of_nil;
    split; split; intros Hx; try reflexivity; try discriminate; auto;
    repeat (destruct Hx as [Hx | Hx]); try discriminate; try contradiction.
Qed.

Lemma annotate_validates_first_witness :
  annotate Demo.jwt_verify Demo.isObjectId (Demo.ok "u") Demo.db0
    (request Demo.call_pdf) =
  (Demo.db0,
   Some (mkRes 400
           (JErrors ["Annotation JSON is required";
                     "Annotated image is required"]))).
Proof.
  apply (annotate_validates_first Demo.jwt_verify Demo.isObjectId
    (Demo.ok "u") Demo.db0
           (request Demo.call_pdf) Demo.root).
  - vm_compute. reflexivity.
  - reflexivity.
  - left. reflexivity.
Defined.



(** X25. Nothing is written during a call in which the artifact store
    fails: on every endpoint that calls it (all but the two reads by id),
    whatever the request, the database is the one before the call and no
    response is a 200 or a 201. *)
Theorem store_failure_writes_nothing (jwt_verify : string -> Verified)
    (isObjectId : string -> bool)
    (isEmail : string -> bool) (db : Db) (c : Call) :
  cloudinary (outside c) = None ->
  endpoint c <> PatientGetSubmission -> endpoint c <> AdminGetSubmission ->
  fst (serve jwt_verify isObjectId isEmail db c) = db /\
  forall res, snd (serve jwt_verify isObjectId isEmail db c) = Some res ->
              statusCode res <> 200 /\ statusCode res <> 201.
Proof.
  destruct c as [e req [oid cl ax]]. cbn [endpoint outside cloudinary].
  intros -> Hg1 Hg2.
  destruct (serve_cases jwt_verify isObjectId isEmail db e req
    (mkOut oid None ax))
    as [(r & -> & Hcode) | (u & _ & _ & ->)].
  - split; [reflexivity|]. intros res [= <-].
    destruct Hcode as [-> | [-> | ->]]; split; discriminate.
  - destruct e; try contradiction; open_handlers; cbn [cloudinary];
      repeat case_match; simplify_eq/=; (split; [reflexivity|]);
      intros ? [= <-]; split; discriminate.
Qed.

Lemma store_failure_writes_nothing_witness :
  fst (serve Demo.jwt_verify Demo.isObjectId Demo.isEmail Demo.db_uploaded
         (mkCall PatientSaveAnnotated (request Demo.call_save_annotated)
            Demo.store_down)) = Demo.db_uploaded /\
  forall res,
    snd (serve Demo.jwt_verify Demo.isObjectId Demo.isEmail Demo.db_uploaded
           (mkCall PatientSaveAnnotated (request Demo.call_save_annotated)
              Demo.store_down)) = Some res ->
    statusCode res <> 200 /\ statusCode res <> 201.
Proof.
  apply (store_failure_writes_nothing Demo.jwt_verify Demo.isObjectId
    Demo.isEmail
           Demo.db_uploaded
           (mkCall PatientSaveAnnotated (request Demo.call_save_annotated)
              Demo.store_down)).
  - reflexivity.
  - discriminate.
  - discriminate.
Defined.
